(** * fixlink: rewriting the targets of junctions and symbolic links

    A shallow embedding of [fixlink/source/fixlink.cpp] (ntfslinkutils).

    The program talks to three things that are not in the file itself:
    - the Win32 API and the C runtime ([GetFileAttributesEx], [FindFirstFile],
      [GetLastError], [_ttoi], ...) together with the link primitives of
      libntfslinks ([IsJunction], [CreateJunction], ...): the class [Win32];
    - the project headers [StringUtils.h] and [DataTypes.h]: the class
      [Headers];
    - the two globals [Options] and [Stats].

    [fixlink] and [_tmain] are written once, over any implementation of the
    two classes.  The calls to the file and link operations of the platform
    and to [StrReplace] are recorded, in order, each with the depth of the
    visit that made it; what is printed is kept apart.  Module [Sim] gives one
    small implementation that can be run.

    The [int]s of the program ([CurDepth], [MaxDepth], the counters) are
    carried as [Z] without a bound. *)

From Stdlib Require Import ZArith List String Ascii Bool Lia.
Import ListNotations.

Local Open Scope string_scope.
Local Open Scope list_scope.
Local Open Scope Z_scope.

(** ** Win32 constants and data *)

(** [DWORD] is an unsigned 32-bit value; it is carried as a [Z]. *)
Definition DWORD := Z.
Definition HANDLE := Z.

Definition INVALID_HANDLE_VALUE : HANDLE := -1.
Definition ERROR_FILE_NOT_FOUND : DWORD := 2.
Definition ERROR_PATH_NOT_FOUND : DWORD := 3.
Definition ERROR_ACCESS_DENIED : DWORD := 5.
Definition ERROR_NO_MORE_FILES : DWORD := 18.
Definition FILE_ATTRIBUTE_DIRECTORY : Z := 16.
Definition FILE_ATTRIBUTE_REPARSE_POINT : Z := 1024.
Definition MAX_PATH : nat := 260.

(** The two fields of [WIN32_FIND_DATA] that the program reads. *)
Record WIN32_FIND_DATA := mkFindData {
  cFileName : string;
  ffd_dwFileAttributes : Z
}.

(** [return result] converts the [DWORD] to the [int] that [_tmain] returns. *)
Definition int_of_DWORD (d : DWORD) : Z :=
  if d <? 2 ^ 31 then d else d - 2 ^ 32.

(** ** strsafe.h

    A buffer is a [string] (its contents up to the terminator).  [cchDest]
    is the size the caller passes; at most [cchDest - 1] characters are
    kept.  The program passes [sizeof(buffer)], a size in bytes: where that
    exceeds the array the real call can write past it, which is outside
    this model. *)

Definition StringCchCopy (cchDest : nat) (pszDest pszSrc : string) : string :=
  match cchDest with
  | O => pszDest
  | S n => substring 0 n pszSrc
  end.

Definition StringCchCat (cchDest : nat) (pszDest pszSrc : string) : string :=
  if (String.length pszDest <? cchDest)%nat
  then substring 0 (cchDest - 1) (pszDest ++ pszSrc)%string
  else pszDest.

(** [None] stands for a failure [HRESULT]. *)
Definition StringCchLength (psz : string) (cchMax : nat) : option nat :=
  if (String.length psz <? cchMax)%nat then Some (String.length psz) else None.

(** [s[i]], with the terminator read as the zero character. *)
Definition char_at (s : string) (i : nat) : ascii :=
  match String.get i s with
  | Some c => c
  | None => zero
  end.

(** ** The globals *)

Record fixlinkOptions := mkOptions {
  OldTargetBase : string;
  NewTargetBase : string;
  MaxDepth : Z;
  bVerbose : bool
}.

Record fixlinkStats := mkStats {
  NumModified : Z;
  NumSkipped : Z;
  NumFailed : Z
}.

(** ** What leaves the file *)

Inductive call :=
| call_GetFileAttributesEx (Path : string)
| call_IsJunction (Path : string)
| call_IsSymlink (Path : string)
| call_GetJunctionTarget (Path : string)
| call_GetSymlinkTarget (Path : string)
| call_StrReplace (Target Old New : string)
| call_DeleteJunction (Path : string)
| call_DeleteSymlink (Path : string)
| call_CreateJunction (Path NewTarget : string)
| call_CreateSymlink (Path NewTarget : string)
| call_FindFirstFile (szDir : string)
| call_FindNextFile (hFind : HANDLE)
| call_FindClose (hFind : HANDLE).

Inductive printf_arg :=
| arg_s (s : string)
| arg_d (n : Z).

(** One [_tprintf]: the format and its arguments. *)
Record output := printed {
  format : string;
  arguments : list printf_arg
}.

(** The platform.  Every operation takes the state of the machine and gives
    it back; [GetLastError] only reads it.  [GetFileAttributesEx] answers
    [Some dwFileAttributes] when it returns non-zero.  [FindNextFile]
    answers [None] when it returns zero. *)
Class Win32 (W : Type) := {
  sizeof_TCHAR : nat;
  _ttoi : string -> Z;
  GetLastError : W -> DWORD;
  GetFileAttributesEx : string -> W -> option Z * W;
  IsJunction : string -> W -> bool * W;
  IsSymlink : string -> W -> bool * W;
  GetJunctionTarget : string -> W -> (DWORD * string) * W;
  GetSymlinkTarget : string -> W -> (DWORD * string) * W;
  DeleteJunction : string -> W -> DWORD * W;
  DeleteSymlink : string -> W -> DWORD * W;
  CreateJunction : string -> string -> W -> DWORD * W;
  CreateSymlink : string -> string -> W -> DWORD * W;
  FindFirstFile : string -> W -> (HANDLE * WIN32_FIND_DATA) * W;
  FindNextFile : HANDLE -> W -> option WIN32_FIND_DATA * W;
  FindClose : HANDLE -> W -> W
}.

(** [StringUtils.h] and [DataTypes.h] are not among the sources.  What the
    program takes from them: the two string helpers and the size of the two
    base buffers of [fixlinkOptions]. *)
Class Headers := {
  StrFind : string -> string -> Z;
  StrReplace : string -> string -> string -> string;
  sizeof_TargetBase : nat
}.

(** Modelled from the spec: the start values of the two globals, whose types
    are declared in [DataTypes.h].  The counters are initialized to zero and
    [-1] is the unbounded depth; the two base buffers and the verbose flag of
    a global object start zeroed. *)
Definition Options_init : fixlinkOptions := mkOptions "" "" (-1) false.
Definition Stats_init : fixlinkStats := mkStats 0 0 0.

(** ** State and the monad of the program *)

Record State (W : Type) := mkState {
  world : W;
  Stats : fixlinkStats;
  stdout : list output;
  calls : list (Z * call)
}.
Arguments mkState {W}.
Arguments world {W}.
Arguments Stats {W}.
Arguments stdout {W}.
Arguments calls {W}.

(** A computation; [None] is a run that was cut off (see [fixlink]). *)
Definition M (W A : Type) := State W -> option A * State W.

Definition ret {W A} (a : A) : M W A := fun s => (Some a, s).

Definition bind {W A B} (m : M W A) (k : A -> M W B) : M W B :=
  fun s =>
    match m s with
    | (Some a, s') => k a s'
    | (None, s') => (None, s')
    end.

Definition cut_off {W A} : M W A := fun s => (None, s).

Declare Scope fixlink_scope.
Delimit Scope fixlink_scope with fixlink.
Notation "x <- m ;; k" := (bind m (fun x => k))
  (at level 61, m at next level, right associativity) : fixlink_scope.
Notation "' p <- m ;; k" := (bind m (fun x => let p := x in k))
  (at level 61, p pattern, m at next level, right associativity) : fixlink_scope.
Notation "m ;; k" := (bind m (fun _ => k))
  (at level 61, right associativity) : fixlink_scope.
Local Open Scope fixlink_scope.

Definition when {W} (b : bool) (m : M W unit) : M W unit :=
  if b then m else ret tt.

Section Program.

Context {W : Type} {os : Win32 W} {hdr : Headers}.

(** A call to the platform made by the visit at depth [CurDepth]. *)
Definition sys {A} (CurDepth : Z) (c : call) (f : W -> A * W) : M W A :=
  fun s =>
    let (a, w) := f (world s) in
    (Some a, mkState w (Stats s) (stdout s) (calls s ++ [(CurDepth, c)])).

Definition last_error : M W DWORD :=
  fun s => (Some (GetLastError (world s)), s).

Definition _tprintf (fmt : string) (args : list printf_arg) : M W unit :=
  fun s => (Some tt, mkState (world s) (Stats s) (stdout s ++ [printed fmt args]) (calls s)).

Definition update_Stats (f : fixlinkStats -> fixlinkStats) : M W unit :=
  fun s => (Some tt, mkState (world s) (f (Stats s)) (stdout s) (calls s)).

(** [Stats.NumSkipped++] and [Stats.NumFailed++]. *)
Definition incr_NumSkipped : M W unit :=
  update_Stats (fun st => mkStats (NumModified st) (NumSkipped st + 1) (NumFailed st)).
Definition incr_NumFailed : M W unit :=
  update_Stats (fun st => mkStats (NumModified st) (NumSkipped st) (NumFailed st + 1)).

(** [PrintErrorMessage], lines 48-56. *)
Definition PrintErrorMessage (ErrorCode : DWORD) (Path : string) : M W unit :=
  if ErrorCode =? ERROR_FILE_NOT_FOUND then _tprintf "File not found: %s.\n" [arg_s Path]
  else if ErrorCode =? ERROR_PATH_NOT_FOUND then _tprintf "Path not found: %s.\n" [arg_s Path]
  else if ErrorCode =? ERROR_ACCESS_DENIED then _tprintf "Access denied: %s.\n" [arg_s Path]
  else ret tt.

Section Visit.

Variable Options : fixlinkOptions.

(** Line 70. *)
Definition depth_guard (CurDepth : Z) : bool :=
  (MaxDepth Options >=? 0) && (CurDepth >? MaxDepth Options).

(** [StrReplace(Target, Options.OldTargetBase, Options.NewTargetBase,
    NewTarget, -1, -1)], lines 92 and 116. *)
Definition replace_target (CurDepth : Z) (Target : string) : M W string :=
  sys CurDepth
    (call_StrReplace Target (OldTargetBase Options) (NewTargetBase Options))
    (fun w => (StrReplace Target (OldTargetBase Options) (NewTargetBase Options), w)).

(** Lines 83-106. *)
Definition fix_junction (Path : string) (CurDepth : Z) : M W DWORD :=
  '(result, Target) <- sys CurDepth (call_GetJunctionTarget Path) (GetJunctionTarget Path) ;;
  if result =? 0 then
    NewTarget <- replace_target CurDepth Target ;;
    result <- sys CurDepth (call_DeleteJunction Path) (DeleteJunction Path) ;;
    if result =? 0 then
      result <- sys CurDepth (call_CreateJunction Path NewTarget) (CreateJunction Path NewTarget) ;;
      when ((result =? 0) && bVerbose Options)
        (_tprintf "junction %s target modified. old=%s, new=%s\n"
                  [arg_s Path; arg_s Target; arg_s NewTarget]) ;;
      ret result
    else ret result
  else ret result.

(** Lines 107-130. *)
Definition fix_symlink (Path : string) (CurDepth : Z) : M W DWORD :=
  '(result, Target) <- sys CurDepth (call_GetSymlinkTarget Path) (GetSymlinkTarget Path) ;;
  if result =? 0 then
    NewTarget <- replace_target CurDepth Target ;;
    result <- sys CurDepth (call_DeleteSymlink Path) (DeleteSymlink Path) ;;
    if result =? 0 then
      result <- sys CurDepth (call_CreateSymlink Path NewTarget) (CreateSymlink Path NewTarget) ;;
      when ((result =? 0) && bVerbose Options)
        (_tprintf "symlink %s target modified. old=%s, new=%s\n"
                  [arg_s Path; arg_s Target; arg_s NewTarget]) ;;
      ret result
    else ret result
  else ret result.

(** Lines 131-139. *)
Definition unrecognized (Path : string) : M W DWORD :=
  result <- last_error ;;
  when (result =? 0)
    (_tprintf "Unrecognized reparse point: %s\n" [arg_s Path] ;;
     incr_NumSkipped) ;;
  ret result.

(** The reparse-point branch, lines 82-139. *)
Definition fix_reparse_point (Path : string) (CurDepth : Z) : M W DWORD :=
  j <- sys CurDepth (call_IsJunction Path) (IsJunction Path) ;;
  if (j : bool) then fix_junction Path CurDepth
  else
    l <- sys CurDepth (call_IsSymlink Path) (IsSymlink Path) ;;
    if (l : bool) then fix_symlink Path CurDepth
    else unrecognized Path.

(** [sizeof(szDir)] and [sizeof(filePath)]: both are [TCHAR[MAX_PATH]]. *)
Definition sizeof_path : nat := (MAX_PATH * sizeof_TCHAR)%nat.

Definition backslash : string := "\".
Definition backslash_star : string := String.append backslash "*".

(** Lines 148-149. *)
Definition search_path (Path : string) : string :=
  StringCchCat sizeof_path (StringCchCopy sizeof_path "" Path) backslash_star.

(** Lines 171-173. *)
Definition child_path (Path Name : string) : string :=
  StringCchCat sizeof_path
    (StringCchCat sizeof_path (StringCchCopy sizeof_path "" Path) backslash)
    Name.

(** The test of lines 159-161. *)
Definition ignored_name (Name : string) : bool :=
  match StringCchLength Name MAX_PATH with
  | None => true
  | Some fileNameLength =>
      (fileNameLength =? 0)%nat
      || ((fileNameLength =? 1)%nat && Ascii.eqb (char_at Name 0) ".")
      || ((fileNameLength =? 2)%nat && Ascii.eqb (char_at Name 0) "."
                                    && Ascii.eqb (char_at Name 1) ".")
  end.

(** The test of lines 167-168. *)
Definition directory_or_reparse (dwFileAttributes : Z) : bool :=
  negb (Z.land dwFileAttributes FILE_ATTRIBUTE_DIRECTORY =? 0)
  || negb (Z.land dwFileAttributes FILE_ATTRIBUTE_REPARSE_POINT =? 0).

(** [FindFirstFile] gave no handle, lines 182-195. *)
Definition enumeration_failed (Path : string) (result : DWORD) : M W DWORD :=
  e <- last_error ;;
  if e =? ERROR_ACCESS_DENIED then
    e <- last_error ;;
    PrintErrorMessage e Path ;;
    incr_NumSkipped ;;
    ret result
  else last_error.

(** Lines 203-210. *)
Definition finish (result : DWORD) (Path : string) : M W DWORD :=
  when (negb (result =? 0))
    (incr_NumFailed ;; PrintErrorMessage result Path) ;;
  ret result.

(** [fixlink], lines 65-211, and its [do ... while] loop, lines 155-177.
    The recursion follows the directory tree that the platform reports, which
    nothing in the code bounds, so both functions count down a number of
    steps and are cut off ([None]) at zero; the state reached is kept. *)
Fixpoint fixlink (fuel : nat) (Path : string) (CurDepth : Z) {struct fuel} : M W DWORD :=
  match fuel with
  | O => cut_off
  | S fuel' =>
      let result := 0 in
      if depth_guard CurDepth then ret result
      else
        a <- sys CurDepth (call_GetFileAttributesEx Path) (GetFileAttributesEx Path) ;;
        result <-
          match a with
          | Some dwFileAttributes =>
              if negb (Z.land dwFileAttributes FILE_ATTRIBUTE_REPARSE_POINT =? 0) then
                fix_reparse_point Path CurDepth
              else if negb (Z.land dwFileAttributes FILE_ATTRIBUTE_DIRECTORY =? 0) then
                let szDir := search_path Path in
                '(hFind, ffd) <- sys CurDepth (call_FindFirstFile szDir) (FindFirstFile szDir) ;;
                if negb (hFind =? INVALID_HANDLE_VALUE) then
                  result <- enumerate fuel' Path CurDepth hFind ffd result ;;
                  sys CurDepth (call_FindClose hFind) (fun w => (tt, FindClose hFind w)) ;;
                  ret result
                else enumeration_failed Path result
              else ret result
          | None => last_error
          end ;;
        finish result Path
  end
with enumerate (fuel : nat) (Path : string) (CurDepth : Z) (hFind : HANDLE)
               (ffd : WIN32_FIND_DATA) (result : DWORD) {struct fuel} : M W DWORD :=
  match fuel with
  | O => cut_off
  | S fuel' =>
      result <-
        (if ignored_name (cFileName ffd) then ret result
         else if directory_or_reparse (ffd_dwFileAttributes ffd) then
           fixlink fuel' (child_path Path (cFileName ffd)) (CurDepth + 1)
         else ret result) ;;
      next <- sys CurDepth (call_FindNextFile hFind) (FindNextFile hFind) ;;
      match next with
      | Some ffd' => enumerate fuel' Path CurDepth hFind ffd' result
      | None => ret result
      end
  end.

End Visit.

End Program.

(** ** The driver *)

Section Driver.

Context {W : Type} {os : Win32 W} {hdr : Headers}.

(** Lines 213-222. *)
Definition PrintUsage : M W unit :=
  _tprintf "Modifies the target path of all symbolic links and junctions in a given set of paths.\n\n" [] ;;
  _tprintf "Usage: fixlink [/V] [/LEV:n] <find> <replace> <path>...\n\n" [] ;;
  _tprintf "Options:\n" [] ;;
  _tprintf "\t\t/LEV:n\t\tOnly copy the top n levels of the source directory tree.\n" [] ;;
  _tprintf "\t\t/V\t\tEnable verbose output and display more information.\n" [] ;;
  _tprintf "\t\t/VER\t\tDisplay the version and copyright information.\n" [] ;;
  _tprintf "\t\t/?\t\tView this list of options.\n" [].

(** Lines 224-248; only the first line of the notice is kept. *)
Definition PrintVersion : M W unit :=
  _tprintf "Copyright (C) 2014, Jean-Philippe Steinmetz. All rights reserved.\n" [].

(** The four option tests of lines 260-276. *)
Definition is_VER (arg : string) : bool :=
  (StrFind arg "/VER" >=? 0) || (StrFind arg "/ver" >=? 0).
Definition is_help (arg : string) : bool :=
  StrFind arg "/?" >=? 0.
Definition is_LEV (arg : string) : bool :=
  (StrFind arg "/LEV" >=? 0) || (StrFind arg "/lev" >=? 0).
Definition is_V (arg : string) : bool :=
  (StrFind arg "/V" >=? 0) || (StrFind arg "/v" >=? 0).

(** [&argv[i][5]].  For an argument of fewer than five characters the
    program reads past its end; here that gives the empty string. *)
Definition from_index_5 (arg : string) : string :=
  substring 5 (String.length arg - 5) arg.

(** [sizeof(Value)] for [TCHAR Value[1024]]. *)
Definition sizeof_Value : nat := (1024 * sizeof_TCHAR)%nat.

Inductive parse_result :=
| parse_return (code : Z)
| parse_continue (Options : fixlinkOptions) (StartArgIdx : Z).

(** The first loop of [_tmain], lines 258-287.  [args] is [argv[i..]];
    [i + 1 < argc] holds when [args] has a second element. *)
Fixpoint parse_arguments (args : list string) (i : Z)
         (Options : fixlinkOptions) (StartArgIdx : Z) {struct args} : M W parse_result :=
  match args with
  | [] => ret (parse_continue Options StartArgIdx)
  | arg :: rest =>
      if is_VER arg then PrintVersion ;; ret (parse_return 0)
      else if is_help arg then PrintUsage ;; ret (parse_return 0)
      else if is_LEV arg then
        let Value := StringCchCopy sizeof_Value "" (from_index_5 arg) in
        parse_arguments rest (i + 1)
          (mkOptions (OldTargetBase Options) (NewTargetBase Options) (_ttoi Value) (bVerbose Options))
          StartArgIdx
      else if is_V arg then
        parse_arguments rest (i + 1)
          (mkOptions (OldTargetBase Options) (NewTargetBase Options) (MaxDepth Options) true)
          StartArgIdx
      else
        match rest with
        | next :: _ =>
            ret (parse_continue
                   (mkOptions (StringCchCopy sizeof_TargetBase (OldTargetBase Options) arg)
                              (StringCchCopy sizeof_TargetBase (NewTargetBase Options) next)
                              (MaxDepth Options) (bVerbose Options))
                   (i + 2))
        | [] => parse_arguments rest (i + 1) Options StartArgIdx
        end
  end.

(** The second loop, lines 298-312: it runs over [argv[1..]], whatever
    [StartArgIdx] is. *)
Fixpoint visit_arguments (fuel : nat) (Options : fixlinkOptions)
         (args : list string) (result : DWORD) {struct args} : M W DWORD :=
  match args with
  | [] => ret result
  | arg :: rest =>
      if Ascii.eqb (char_at arg 0) "/" then visit_arguments fuel Options rest result
      else
        result <- fixlink Options fuel arg 0 ;;
        if negb (result =? 0) then ret result
        else visit_arguments fuel Options rest result
  end.

Definition get_Stats : M W fixlinkStats := fun s => (Some (Stats s), s).

(** Lines 314-317. *)
Definition print_statistics : M W unit :=
  st <- get_Stats ;;
  _tprintf "Modified: %d\n" [arg_d (NumModified st)] ;;
  _tprintf "Skipped: %d\n" [arg_d (NumSkipped st)] ;;
  _tprintf "Failed: %d\n" [arg_d (NumFailed st)].

(** [_tmain], lines 250-326.  [Options_start] is the value of the global
    [Options] when the program starts.  [result] is declared without a
    value: [indeterminate] is what it holds until the first assignment. *)
Definition _tmain (fuel : nat) (Options_start : fixlinkOptions)
           (indeterminate : DWORD) (argv : list string) : M W Z :=
  let argc := Z.of_nat (List.length argv) in
  let result := indeterminate in
  let requiredArgs := 4 in
  let StartArgIdx := 4 in
  p <- parse_arguments (tl argv) 1 Options_start StartArgIdx ;;
  match p with
  | parse_return code => ret code
  | parse_continue Options StartArgIdx =>
      if argc <? requiredArgs then
        _tprintf "Error: Missing argument(s).\n" [] ;;
        PrintUsage ;;
        ret 1
      else
        result <- visit_arguments fuel Options (tl argv) result ;;
        print_statistics ;;
        st <- get_Stats ;;
        let result := if (result =? 0) && (NumFailed st >? 0) then 1 else result in
        ret (int_of_DWORD result)
  end.

End Driver.

(** ** [StrReplace] *)

Module StringUtils.

(** [Search] is a prefix of [Str]. *)
Fixpoint starts_with (Search Str : string) : bool :=
  match Search, Str with
  | EmptyString, _ => true
  | String a Search', String b Str' => Ascii.eqb a b && starts_with Search' Str'
  | String _ _, EmptyString => false
  end.

(** The scan behind [StrReplace]: [skip] characters of a match just replaced
    are still to be passed over. *)
Fixpoint scan (Search Replace : string) (skip : nat) (Str : string) : string :=
  match Str with
  | EmptyString =>
      match Search with
      | EmptyString => Replace
      | String _ _ => EmptyString
      end
  | String c rest =>
      match skip with
      | S k => scan Search Replace k rest
      | O =>
          if starts_with Search Str then
            match Search with
            | EmptyString => (Replace ++ String c (scan Search Replace 0 rest))%string
            | String _ Search' => (Replace ++ scan Search Replace (String.length Search') rest)%string
            end
          else String c (scan Search Replace 0 rest)
      end
  end.

(** Modelled from the spec: [StrReplace] of [StringUtils.h], whose source is
    missing.  The spec has the new target computed by scanning the current
    target for every literal occurrence of the old base and replacing it with
    the new base, non-overlapping and leftmost first; an empty old base
    matches everywhere. *)
Definition StrReplace_spec (Str Search Replace : string) : string :=
  scan Search Replace 0 Str.

(** The position of the first occurrence of [Search] in [Str], or [-1].  The
    spec is silent on [StrFind]; the program only tests its sign. *)
Definition StrFind_index (Str Search : string) : Z :=
  match String.index 0 Search Str with
  | Some p => Z.of_nat p
  | None => -1
  end.

End StringUtils.

(** ** A machine to run the program on

    A table of files, a table of injected faults, the last-error value and
    the open directory searches.  It is one implementation of [Win32] among
    many; the general theorems below do not depend on it. *)

Module Sim.

Inductive tag := tag_junction | tag_symlink | tag_other.

Record node := mkNode {
  attributes : Z;
  reparse_tag : tag;
  target : string;
  listing : list WIN32_FIND_DATA
}.

Inductive op := op_attributes | op_kind | op_target | op_delete | op_create | op_find.

Definition op_eqb (a b : op) : bool :=
  match a, b with
  | op_attributes, op_attributes | op_kind, op_kind | op_target, op_target
  | op_delete, op_delete | op_create, op_create | op_find, op_find => true
  | _, _ => false
  end.

Record machine := mkMachine {
  files : list (string * node);
  faults : list (op * string * DWORD);
  error : DWORD;
  searches : list (list WIN32_FIND_DATA)
}.

Fixpoint lookup (Path : string) (fs : list (string * node)) : option node :=
  match fs with
  | [] => None
  | (p, n) :: fs' => if String.eqb p Path then Some n else lookup Path fs'
  end.

Fixpoint remove (Path : string) (fs : list (string * node)) : list (string * node) :=
  match fs with
  | [] => []
  | (p, n) :: fs' => if String.eqb p Path then remove Path fs' else (p, n) :: remove Path fs'
  end.

(** The error injected for [o] on [Path]; [0] when there is none. *)
Fixpoint fault (o : op) (Path : string) (fl : list (op * string * DWORD)) : DWORD :=
  match fl with
  | [] => 0
  | (o', p, e) :: fl' => if op_eqb o' o && String.eqb p Path then e else fault o Path fl'
  end.

Definition set_error (e : DWORD) (m : machine) : machine :=
  mkMachine (files m) (faults m) e (searches m).

Definition set_files (fs : list (string * node)) (m : machine) : machine :=
  mkMachine fs (faults m) (error m) (searches m).

Definition sim_GetFileAttributesEx (Path : string) (m : machine) : option Z * machine :=
  let e := fault op_attributes Path (faults m) in
  if negb (e =? 0) then (None, set_error e m)
  else match lookup Path (files m) with
       | Some n => (Some (attributes n), m)
       | None => (None, set_error ERROR_FILE_NOT_FOUND m)
       end.

Definition has_tag (t : tag) (Path : string) (m : machine) : bool * machine :=
  let e := fault op_kind Path (faults m) in
  if negb (e =? 0) then (false, set_error e m)
  else match lookup Path (files m) with
       | Some n =>
           (match t, reparse_tag n with
            | tag_junction, tag_junction | tag_symlink, tag_symlink => true
            | _, _ => false
            end, m)
       | None => (false, set_error ERROR_FILE_NOT_FOUND m)
       end.

Definition read_target (Path : string) (m : machine) : (DWORD * string) * machine :=
  let e := fault op_target Path (faults m) in
  if negb (e =? 0) then ((e, ""), m)
  else match lookup Path (files m) with
       | Some n => ((0, target n), m)
       | None => ((ERROR_FILE_NOT_FOUND, ""), m)
       end.

Definition delete_link (Path : string) (m : machine) : DWORD * machine :=
  let e := fault op_delete Path (faults m) in
  if negb (e =? 0) then (e, m)
  else (0, set_files (remove Path (files m)) m).

Definition create_link (t : tag) (attrs : Z) (Path NewTarget : string) (m : machine)
  : DWORD * machine :=
  let e := fault op_create Path (faults m) in
  if negb (e =? 0) then (e, m)
  else (0, set_files ((Path, mkNode attrs t NewTarget []) :: remove Path (files m)) m).

(** The directory named by a search path: the path without its last two
    characters. *)
Definition searched_directory (szDir : string) : string :=
  substring 0 (String.length szDir - 2) szDir.

Definition no_find_data : WIN32_FIND_DATA := mkFindData "" 0.

Definition sim_FindFirstFile (szDir : string) (m : machine)
  : (HANDLE * WIN32_FIND_DATA) * machine :=
  let dir := searched_directory szDir in
  let e := fault op_find dir (faults m) in
  if negb (e =? 0) then ((INVALID_HANDLE_VALUE, no_find_data), set_error e m)
  else match lookup dir (files m) with
       | Some (mkNode _ _ _ (first :: others)) =>
           ((Z.of_nat (List.length (searches m)), first),
            mkMachine (files m) (faults m) (error m) (searches m ++ [others]))
       | _ => ((INVALID_HANDLE_VALUE, no_find_data), set_error ERROR_PATH_NOT_FOUND m)
       end.

Fixpoint take_next (h : nat) (ss : list (list WIN32_FIND_DATA))
  : option WIN32_FIND_DATA * list (list WIN32_FIND_DATA) :=
  match ss with
  | [] => (None, [])
  | l :: ss' =>
      match h with
      | O => match l with
             | [] => (None, ss)
             | e :: l' => (Some e, l' :: ss')
             end
      | S h' => let (r, ss'') := take_next h' ss' in (r, l :: ss'')
      end
  end.

Definition sim_FindNextFile (hFind : HANDLE) (m : machine)
  : option WIN32_FIND_DATA * machine :=
  match take_next (Z.to_nat hFind) (searches m) with
  | (Some e, ss) => (Some e, mkMachine (files m) (faults m) (error m) ss)
  | (None, _) => (None, set_error ERROR_NO_MORE_FILES m)
  end.

(** Decimal digits with an optional minus sign, as far as they go. *)
Fixpoint digits (acc : Z) (s : string) : Z :=
  match s with
  | EmptyString => acc
  | String c s' =>
      let n := Z.of_nat (nat_of_ascii c) in
      if (48 <=? n) && (n <=? 57) then digits (10 * acc + (n - 48)) s' else acc
  end.

Definition sim_ttoi (s : string) : Z :=
  match s with
  | String "-" s' => - digits 0 s'
  | _ => digits 0 s
  end.

#[global] Instance win32 : Win32 machine := {
  sizeof_TCHAR := 2;
  _ttoi := sim_ttoi;
  GetLastError := error;
  GetFileAttributesEx := sim_GetFileAttributesEx;
  IsJunction := has_tag tag_junction;
  IsSymlink := has_tag tag_symlink;
  GetJunctionTarget := read_target;
  GetSymlinkTarget := read_target;
  DeleteJunction := delete_link;
  DeleteSymlink := delete_link;
  CreateJunction :=
    create_link tag_junction (Z.lor FILE_ATTRIBUTE_DIRECTORY FILE_ATTRIBUTE_REPARSE_POINT);
  CreateSymlink := create_link tag_symlink FILE_ATTRIBUTE_REPARSE_POINT;
  FindFirstFile := sim_FindFirstFile;
  FindNextFile := sim_FindNextFile;
  FindClose := fun _ m => m
}.

(** The headers: the string helpers of [StringUtils] and base buffers of
    [MAX_PATH] characters. *)
#[global] Instance headers : Headers := {
  StrFind := StringUtils.StrFind_index;
  StrReplace := StringUtils.StrReplace_spec;
  sizeof_TargetBase := (MAX_PATH * 2)%nat
}.

Definition boot (fs : list (string * node)) (fl : list (op * string * DWORD)) : State machine :=
  mkState (mkMachine fs fl 0 []) Stats_init [] [].

Definition plain_file : node := mkNode 32 tag_other "" [].
Definition junction (Target : string) : node :=
  mkNode (Z.lor FILE_ATTRIBUTE_DIRECTORY FILE_ATTRIBUTE_REPARSE_POINT) tag_junction Target [].
Definition symlink (Target : string) : node :=
  mkNode FILE_ATTRIBUTE_REPARSE_POINT tag_symlink Target [].
Definition other_reparse_point : node :=
  mkNode FILE_ATTRIBUTE_REPARSE_POINT tag_other "" [].
Definition directory (names : list WIN32_FIND_DATA) : node :=
  mkNode FILE_ATTRIBUTE_DIRECTORY tag_other ""
         (mkFindData "." FILE_ATTRIBUTE_DIRECTORY :: mkFindData ".." FILE_ATTRIBUTE_DIRECTORY :: names).

End Sim.

(** ** The vocabulary of the properties *)

(** A computation that is never cut off. *)
Definition total {W A} (m : M W A) : Prop :=
  forall s, exists a, fst (m s) = Some a.

(** A relation between the state before and the state after that every
    step of a computation respects. *)
Definition keeps {W} (R : State W -> State W -> Prop) {A} (m : M W A) : Prop :=
  forall s, R s (snd (m s)).

(** The calls made since [s] all satisfy [ok]. *)
Definition extends {W} (ok : Z * call -> Prop) (s s' : State W) : Prop :=
  exists new, calls s' = calls s ++ new /\ Forall ok new.

(** The [Modified] counter is where it was. *)
Definition same_NumModified {W} (s s' : State W) : Prop :=
  NumModified (Stats s') = NumModified (Stats s).

(** What is known of a call made by a visit at depth [d]: the guard let the
    visit through, and a call of [StrReplace] carries the two bases. *)
Definition issued (Options : fixlinkOptions) (d : Z) (c : call) : Prop :=
  depth_guard Options d = false /\
  forall T o n, c = call_StrReplace T o n ->
                o = OldTargetBase Options /\ n = NewTargetBase Options.

(** A call that concerns the link at [Path] itself: no enumeration, no other
    path. *)
Definition link_call (Path : string) (c : call) : Prop :=
  match c with
  | call_GetFileAttributesEx p | call_IsJunction p | call_IsSymlink p
  | call_GetJunctionTarget p | call_GetSymlinkTarget p
  | call_DeleteJunction p | call_DeleteSymlink p
  | call_CreateJunction p _ | call_CreateSymlink p _ => p = Path
  | call_StrReplace _ _ _ => True
  | call_FindFirstFile _ | call_FindNextFile _ | call_FindClose _ => False
  end.

(** A call made at depth [d] that concerns the link at [Path]. *)
Definition on_link (Path : string) (d : Z) (e : Z * call) : Prop :=
  fst e = d /\ link_call Path (snd e).


(** An argument that the first loop takes for [/LEV] or [/V] and goes past. *)
Definition passed_option {hdr : Headers} (arg : string) : Prop :=
  is_VER arg = false /\ is_help arg = false /\ (is_LEV arg = true \/ is_V arg = true).

(** An argument that the first loop takes for none of its options. *)
Definition no_option {hdr : Headers} (arg : string) : Prop :=
  is_VER arg = false /\ is_help arg = false /\ is_LEV arg = false /\ is_V arg = false.

Module Substitution.

Import StringUtils.




End Substitution.

(** ** Machines and command lines for the examples *)

(** One regular file. *)
Definition notes_txt : State Sim.machine :=
  Sim.boot [("C:\data\notes.txt", Sim.plain_file)] [].

(** [fixlink /LEV:0 C:\old C:\new ...] once parsed. *)
Definition top_level_only : fixlinkOptions := mkOptions "C:\old" "C:\new" 0 false.

(** A directory that holds one junction. *)
Definition data_with_junction : State Sim.machine :=
  Sim.boot [("C:\data", Sim.directory [mkFindData "L" 1040]);
            ("C:\data\L", Sim.junction "C:\old\sub")] [].

(** A reparse point that is neither a junction nor a symbolic link. *)
Definition app_link : State Sim.machine :=
  Sim.boot [("C:\data\app", Sim.other_reparse_point)] [].

(** The same reparse point when the two tests cannot open it. *)
Definition app_link_locked : State Sim.machine :=
  Sim.boot [("C:\data\app", Sim.other_reparse_point)]
           [(Sim.op_kind, "C:\data\app", ERROR_ACCESS_DENIED)].



(** [C:\old] and [C:\new] exist; the root [C:\gone] does not. *)
Definition missing_root : State Sim.machine :=
  Sim.boot [("C:\old", Sim.plain_file); ("C:\new", Sim.plain_file)] [].

Definition missing_root_argv : list string :=
  ["fixlink"; "C:\old"; "C:\new"; "C:\gone"].

Definition find_replace_argv : list string :=
  ["fixlink"; "/V"; "C:\old"; "C:\new"; "C:\data\L"].

(** [C:\old] and [C:\new] exist next to the directory with its junction. *)
Definition old_new_and_junction : State Sim.machine :=
  Sim.boot [("C:\old", Sim.plain_file); ("C:\new", Sim.plain_file);
            ("C:\data", Sim.directory [mkFindData "L" 1040]);
            ("C:\data\L", Sim.junction "C:\old\sub")] [].

(** Two options and one path: four arguments, no base. *)
Definition options_only_argv : list string :=
  ["fixlink"; "/V"; "/V"; "C:\data\L"].

(** An empty [replace] token. *)
Definition empty_replace_argv : list string :=
  ["fixlink"; "C:\data"; ""; "C:\data"].

(** The command line of the usage text. *)
Definition usual_argv : list string :=
  ["fixlink"; "C:\old"; "C:\new"; "C:\data"].

(** ** The vocabulary of the further properties *)

(** The [Modified] counter is where it was and the other two have not gone
    down. *)
Definition counters_grow {W} (s s' : State W) : Prop :=
  NumModified (Stats s') = NumModified (Stats s) /\
  NumSkipped (Stats s) <= NumSkipped (Stats s') /\
  NumFailed (Stats s) <= NumFailed (Stats s').

(** The calls of the junction branch, and those of the symbolic-link branch. *)
Definition junction_call (c : call) : Prop :=
  match c with
  | call_GetJunctionTarget _ | call_StrReplace _ _ _
  | call_DeleteJunction _ | call_CreateJunction _ _ => True
  | _ => False
  end.

Definition symlink_call (c : call) : Prop :=
  match c with
  | call_GetSymlinkTarget _ | call_StrReplace _ _ _
  | call_DeleteSymlink _ | call_CreateSymlink _ _ => True
  | _ => False
  end.

(** A directory with two subdirectories: the first cannot be opened for its
    attributes, the second is empty. *)
Definition two_children : State Sim.machine :=
  Sim.boot [("C:\data", Sim.directory [mkFindData "a" 16; mkFindData "b" 16]);
            ("C:\data\a", Sim.directory []);
            ("C:\data\b", Sim.directory [])]
           [(Sim.op_attributes, "C:\data\a", ERROR_ACCESS_DENIED)].

(** A directory whose only subdirectory cannot be opened for its attributes. *)
Definition one_locked_child : State Sim.machine :=
  Sim.boot [("C:\data", Sim.directory [mkFindData "a" 16]);
            ("C:\data\a", Sim.directory [])]
           [(Sim.op_attributes, "C:\data\a", ERROR_ACCESS_DENIED)].

(** A junction that can be deleted but not created again. *)
Definition junction_not_recreated : State Sim.machine :=
  Sim.boot [("C:\data\L", Sim.junction "C:\old\sub")]
           [(Sim.op_create, "C:\data\L", ERROR_ACCESS_DENIED)].

(** A junction whose target cannot be read. *)
Definition junction_unreadable : State Sim.machine :=
  Sim.boot [("C:\data\L", Sim.junction "C:\old\sub")]
           [(Sim.op_target, "C:\data\L", ERROR_ACCESS_DENIED)].






(** * Properties *)

(** ** Reasoning about computations *)

Lemma bind_ret {W A B} (a : A) (k : A -> M W B) (s : State W) :
  bind (ret a) k s = k a s.
Proof. reflexivity. Qed.

Lemma bind_value {W A B} (m : M W A) (k : A -> M W B) (s s1 : State W) (a : A) :
  m s = (Some a, s1) -> bind m k s = k a s1.
Proof. intros E. unfold bind. rewrite E. reflexivity. Qed.

Lemma total_ret {W A} (a : A) : total (@ret W A a).
Proof. intros s. exists a. reflexivity. Qed.

Lemma total_bind {W A B} (m : M W A) (k : A -> M W B) :
  total m -> (forall a, total (k a)) -> total (bind m k).
Proof.
  intros Hm Hk s. unfold bind.
  destruct (Hm s) as [a Ha]. destruct (m s) as [[a'|] s1]; simpl in Ha.
  - apply Hk.
  - discriminate.
Qed.

Lemma total_when {W} (b : bool) (m : M W unit) : total m -> total (when b m).
Proof. intros Hm. destruct b; simpl; [exact Hm | apply total_ret]. Qed.

Section Keeps.

Context {W : Type}.
Variable R : State W -> State W -> Prop.
Hypothesis R_refl : forall s, R s s.
Hypothesis R_trans : forall a b c, R a b -> R b c -> R a c.

Lemma keeps_ret {A} (a : A) : keeps R (ret a).
Proof. intros s. apply R_refl. Qed.

Lemma keeps_cut_off {A} : keeps R (@cut_off W A).
Proof. intros s. apply R_refl. Qed.

Lemma keeps_bind {A B} (m : M W A) (k : A -> M W B) :
  keeps R m -> (forall a, keeps R (k a)) -> keeps R (bind m k).
Proof.
  intros Hm Hk s. unfold bind. specialize (Hm s).
  destruct (m s) as [[a|] s1]; simpl in Hm.
  - eapply R_trans; [exact Hm | apply Hk].
  - exact Hm.
Qed.

Lemma keeps_when (b : bool) (m : M W unit) : keeps R m -> keeps R (when b m).
Proof. intros Hm. destruct b; simpl; [exact Hm | apply keeps_ret]. Qed.

End Keeps.

Lemma extends_refl {W} ok (s : State W) : extends ok s s.
Proof. exists []. split; [symmetry; apply app_nil_r | constructor]. Qed.

Lemma extends_trans {W} ok (a b c : State W) :
  extends ok a b -> extends ok b c -> extends ok a c.
Proof.
  intros [n1 [E1 F1]] [n2 [E2 F2]]. exists (n1 ++ n2). split.
  - rewrite E2, E1. symmetry. apply app_assoc.
  - apply Forall_app. split; assumption.
Qed.

Section Steps.

Context {W : Type} {os : Win32 W} {hdr : Headers}.

Lemma bind_sys {A B} (d : Z) (c : call) (f : W -> A * W) (k : A -> M W B)
      (s : State W) (a : A) (w : W) :
  f (world s) = (a, w) ->
  bind (sys d c f) k s = k a (mkState w (Stats s) (stdout s) (calls s ++ [(d, c)])).
Proof. intros E. unfold bind, sys. rewrite E. reflexivity. Qed.

Lemma total_sys {A} d c (f : W -> A * W) : total (sys d c f).
Proof. intros s. unfold sys. destruct (f (world s)) as [a w]. exists a. reflexivity. Qed.

Lemma total_tprintf fmt args : total (W:=W) (_tprintf fmt args).
Proof. intros s. exists tt. reflexivity. Qed.

Lemma total_update_Stats f : total (W:=W) (update_Stats f).
Proof. intros s. exists tt. reflexivity. Qed.

Lemma total_last_error : total last_error.
Proof. intros s. eexists. reflexivity. Qed.

Lemma total_PrintErrorMessage e Path : total (W:=W) (PrintErrorMessage e Path).
Proof.
  unfold PrintErrorMessage.
  repeat match goal with |- total (if ?b then _ else _) => destruct b end;
    first [apply total_tprintf | apply total_ret].
Qed.

Lemma extends_sys {A} (ok : Z * call -> Prop) d c (f : W -> A * W) :
  ok (d, c) -> keeps (extends ok) (sys d c f).
Proof.
  intros H s. unfold sys. destruct (f (world s)) as [a w]. simpl.
  exists [(d, c)]. split; [reflexivity | repeat constructor; exact H].
Qed.

End Steps.

(** [fixlink] respects every relation that its steps respect. *)
Section Visit_keeps.

Context {W : Type} {os : Win32 W} {hdr : Headers}.
Variable Options : fixlinkOptions.
Variable R : State W -> State W -> Prop.
Hypothesis R_refl : forall s, R s s.
Hypothesis R_trans : forall a b c, R a b -> R b c -> R a c.

Hypothesis R_sys :
  forall A d c (f : W -> A * W), issued Options d c -> keeps R (sys d c f).
Hypothesis R_tprintf : forall fmt args, keeps R (_tprintf fmt args).
Hypothesis R_NumSkipped : keeps R incr_NumSkipped.
Hypothesis R_NumFailed : keeps R incr_NumFailed.

Lemma keeps_last_error : keeps R last_error.
Proof. intros s. apply R_refl. Qed.

Lemma keeps_PrintErrorMessage e Path : keeps R (PrintErrorMessage e Path).
Proof.
  unfold PrintErrorMessage.
  repeat match goal with |- keeps _ (if ?b then _ else _) => destruct b end;
    first [apply R_tprintf | apply (keeps_ret R R_refl)].
Qed.

Ltac issued_now G :=
  split; [exact G | intros ? ? ? E; first [discriminate E | injection E as <- <- <-; split; reflexivity]].

Ltac keeps_step G :=
  first
    [ apply (keeps_ret R R_refl)
    | apply (keeps_cut_off R R_refl)
    | apply keeps_last_error
    | apply keeps_PrintErrorMessage
    | apply R_tprintf
    | apply R_NumSkipped
    | apply R_NumFailed
    | apply R_sys; issued_now G
    | apply (keeps_when R R_refl)
    | apply (keeps_bind R R_trans); [| intros ?]
    | match goal with
      | |- keeps _ (if ?b then _ else _) => destruct b
      | |- keeps _ (let (_, _) := ?x in _) => destruct x
      | |- keeps _ (match ?x with Some _ => _ | None => _ end) => destruct x
      end ].

Lemma keeps_finish r Path : keeps R (finish r Path).
Proof. unfold finish. repeat keeps_step I. Qed.

Lemma keeps_fix_reparse_point Path d :
  depth_guard Options d = false -> keeps R (fix_reparse_point Options Path d).
Proof.
  intros G. unfold fix_reparse_point, fix_junction, fix_symlink, unrecognized, replace_target.
  repeat keeps_step G.
Qed.

Lemma keeps_enumeration_failed Path r : keeps R (enumeration_failed Path r).
Proof. unfold enumeration_failed. repeat keeps_step I. Qed.

Lemma keeps_fixlink_enumerate fuel :
  (forall Path d, keeps R (fixlink Options fuel Path d)) /\
  (forall Path d h ffd r, depth_guard Options d = false ->
                          keeps R (enumerate Options fuel Path d h ffd r)).
Proof.
  induction fuel as [|fuel [IHf IHe]]; split; intros; simpl.
  - apply (keeps_cut_off R R_refl).
  - apply (keeps_cut_off R R_refl).
  - destruct (depth_guard Options d) eqn:G; [apply (keeps_ret R R_refl)|].
    apply (keeps_bind R R_trans); [apply R_sys; issued_now G | intros a].
    apply (keeps_bind R R_trans); [| intros r; apply keeps_finish].
    destruct a as [attrs|]; [|apply keeps_last_error].
    destruct (negb (Z.land attrs FILE_ATTRIBUTE_REPARSE_POINT =? 0));
      [apply keeps_fix_reparse_point; exact G|].
    destruct (negb (Z.land attrs FILE_ATTRIBUTE_DIRECTORY =? 0));
      [|apply (keeps_ret R R_refl)].
    apply (keeps_bind R R_trans); [apply R_sys; issued_now G | intros [h ffd]].
    destruct (negb (h =? INVALID_HANDLE_VALUE)); [|apply keeps_enumeration_failed].
    apply (keeps_bind R R_trans); [apply IHe; exact G | intros r].
    apply (keeps_bind R R_trans); [apply R_sys; issued_now G | intros _].
    apply (keeps_ret R R_refl).
  - apply (keeps_bind R R_trans); [| intros r'].
    + destruct (ignored_name (cFileName ffd)); [apply (keeps_ret R R_refl)|].
      destruct (directory_or_reparse (ffd_dwFileAttributes ffd));
        [apply IHf | apply (keeps_ret R R_refl)].
    + apply (keeps_bind R R_trans); [apply R_sys; issued_now H | intros [ffd'|]].
      * apply IHe; exact H.
      * apply (keeps_ret R R_refl).
Qed.

Lemma keeps_fixlink fuel Path d : keeps R (fixlink Options fuel Path d).
Proof. apply keeps_fixlink_enumerate. Qed.

Lemma keeps_visit_arguments fuel args r : keeps R (visit_arguments fuel Options args r).
Proof.
  revert r. induction args as [|arg rest IH]; intros r; simpl.
  - apply (keeps_ret R R_refl).
  - destruct (Ascii.eqb (char_at arg 0) "/"); [apply IH|].
    apply (keeps_bind R R_trans); [apply keeps_fixlink | intros r'].
    destruct (negb (r' =? 0)); [apply (keeps_ret R R_refl) | apply IH].
Qed.

End Visit_keeps.

(** ** One visit, step by step *)

Section Visit_facts.

Context {W : Type} {os : Win32 W} {hdr : Headers}.
Variable Options : fixlinkOptions.

(** The visit once the guard has let it through and the attributes are
    known. *)
Lemma fixlink_attributes fuel Path d s a w1 :
  depth_guard Options d = false ->
  GetFileAttributesEx Path (world s) = (Some a, w1) ->
  fixlink Options (S fuel) Path d s =
  bind
    (if negb (Z.land a FILE_ATTRIBUTE_REPARSE_POINT =? 0) then
       fix_reparse_point Options Path d
     else if negb (Z.land a FILE_ATTRIBUTE_DIRECTORY =? 0) then
       bind (sys d (call_FindFirstFile (search_path Path)) (FindFirstFile (search_path Path)))
            (fun x => let '(hFind, ffd) := x in
               if negb (hFind =? INVALID_HANDLE_VALUE) then
                 bind (enumerate Options fuel Path d hFind ffd 0)
                      (fun result =>
                         bind (sys d (call_FindClose hFind) (fun w => (tt, FindClose hFind w)))
                              (fun _ => ret result))
               else enumeration_failed Path 0)
     else ret 0)
    (fun result => finish result Path)
    (mkState w1 (Stats s) (stdout s) (calls s ++ [(d, call_GetFileAttributesEx Path)])).
Proof.
  intros G E. cbn [fixlink]. rewrite G.
  rewrite (bind_sys _ _ _ _ _ _ _ E). reflexivity.
Qed.


Lemma finish_zero Path (s : State W) : finish 0 Path s = (Some 0, s).
Proof. reflexivity. Qed.

(** A non-zero result is counted once and reported. *)
Lemma finish_failure r Path (s : State W) :
  r <> 0 ->
  exists s', finish r Path s = (Some r, s') /\
             world s' = world s /\ calls s' = calls s /\
             NumModified (Stats s') = NumModified (Stats s) /\
             NumSkipped (Stats s') = NumSkipped (Stats s) /\
             NumFailed (Stats s') = NumFailed (Stats s) + 1.
Proof.
  intros Hr. unfold finish.
  destruct (r =? 0) eqn:E; [apply Z.eqb_eq in E; contradiction|].
  cbn [negb when]. unfold bind at 1. unfold bind at 1.
  unfold incr_NumFailed, update_Stats.
  unfold PrintErrorMessage.
  repeat match goal with |- context [if ?b then _ else _] => destruct b end;
    eexists; (split; [reflexivity | cbn; repeat split; reflexivity]).
Qed.

End Visit_facts.

(** ** What [fixlink] does to the record of calls and to the counters *)

Section Trace.

Context {W : Type} {os : Win32 W} {hdr : Headers}.

Lemma extends_same_calls ok (s s' : State W) : calls s' = calls s -> extends ok s s'.
Proof. intros E. exists []. split; [rewrite E; symmetry; apply app_nil_r | constructor]. Qed.

Lemma extends_tprintf ok fmt args : keeps (W:=W) (extends ok) (_tprintf fmt args).
Proof. intros s. apply extends_same_calls. reflexivity. Qed.

Lemma extends_update_Stats ok f : keeps (W:=W) (extends ok) (update_Stats f).
Proof. intros s. apply extends_same_calls. reflexivity. Qed.

Lemma same_NumModified_refl (s : State W) : same_NumModified s s.
Proof. reflexivity. Qed.

Lemma same_NumModified_trans (a b c : State W) :
  same_NumModified a b -> same_NumModified b c -> same_NumModified a c.
Proof. unfold same_NumModified. intros H1 H2. rewrite H2. exact H1. Qed.

Lemma same_NumModified_sys {A} d c (f : W -> A * W) : keeps same_NumModified (sys d c f).
Proof. intros s. unfold sys. destruct (f (world s)). reflexivity. Qed.


Lemma visit_arguments_calls_issued Options fuel args r s :
  extends (fun e => issued Options (fst e) (snd e)) s
          (snd (visit_arguments fuel Options args r s)).
Proof.
  apply (keeps_visit_arguments Options _ (extends_refl _) (extends_trans _)).
  - intros A d' c f H. apply extends_sys. exact H.
  - intros. apply extends_tprintf.
  - apply extends_update_Stats.
  - apply extends_update_Stats.
Qed.

(** No statement of [fixlink] writes [Stats.NumModified]. *)
Lemma fixlink_same_NumModified Options fuel Path d s :
  NumModified (Stats (snd (fixlink Options fuel Path d s))) = NumModified (Stats s).
Proof.
  apply (keeps_fixlink Options same_NumModified same_NumModified_refl same_NumModified_trans).
  - intros. apply same_NumModified_sys.
  - intros fmt args s'. reflexivity.
  - intros s'. reflexivity.
  - intros s'. reflexivity.
Qed.

Lemma visit_arguments_same_NumModified Options fuel args r s :
  NumModified (Stats (snd (visit_arguments fuel Options args r s))) = NumModified (Stats s).
Proof.
  apply (keeps_visit_arguments Options same_NumModified
                               same_NumModified_refl same_NumModified_trans).
  - intros. apply same_NumModified_sys.
  - intros fmt args' s'. reflexivity.
  - intros s'. reflexivity.
  - intros s'. reflexivity.
Qed.

End Trace.

(** ** The claims *)

(** C10.  A visit of an existing object whose attributes carry neither the
    reparse-point bit nor the directory bit returns zero.  The three counters
    and the output are as before, and the attribute query is the only call
    the visit makes (none at all when the depth guard stops it): no link is
    read, deleted or created and nothing is enumerated. *)
Theorem fixlink_leaves_plain_objects_alone :
  forall (W : Type) (os : Win32 W) (hdr : Headers) (Options : fixlinkOptions)
         (fuel : nat) (Path : string) (CurDepth : Z) (s : State W) (a : Z) (w1 : W),
    GetFileAttributesEx Path (world s) = (Some a, w1) ->
    Z.land a FILE_ATTRIBUTE_REPARSE_POINT = 0 ->
    Z.land a FILE_ATTRIBUTE_DIRECTORY = 0 ->
    fixlink Options (S fuel) Path CurDepth s =
    (Some 0,
     if depth_guard Options CurDepth then s
     else mkState w1 (Stats s) (stdout s)
                  (calls s ++ [(CurDepth, call_GetFileAttributesEx Path)])).
Proof.
  intros W os hdr Options fuel Path d s a w1 E Hr Hd.
  destruct (depth_guard Options d) eqn:G.
  - cbn [fixlink]. rewrite G. reflexivity.
  - rewrite (fixlink_attributes Options fuel Path d s a w1 G E).
    rewrite Hr, Hd. reflexivity.
Qed.

Lemma fixlink_leaves_plain_objects_alone_witness :
  GetFileAttributesEx "C:\data\notes.txt" (world notes_txt) = (Some 32, world notes_txt) /\
  Z.land 32 FILE_ATTRIBUTE_REPARSE_POINT = 0 /\
  Z.land 32 FILE_ATTRIBUTE_DIRECTORY = 0 /\
  fixlink (os := Sim.win32) (hdr := Sim.headers) Options_init 1 "C:\data\notes.txt" 0 notes_txt =
  (Some 0,
   mkState (world notes_txt) Stats_init [] [(0, call_GetFileAttributesEx "C:\data\notes.txt")]).
Proof.
  split; [reflexivity | split; [reflexivity | split; [reflexivity | ]]].
  apply (fixlink_leaves_plain_objects_alone
           Sim.machine Sim.win32 Sim.headers Options_init 0 "C:\data\notes.txt" 0
           notes_txt 32 (world notes_txt)); reflexivity.
Defined.



Section Running.

Context {W : Type} {os : Win32 W} {hdr : Headers}.

Lemma bind_assoc {A B C} (m : M W A) (k : A -> M W B) (k' : B -> M W C) (s : State W) :
  bind (bind m k) k' s = bind m (fun a => bind (k a) k') s.
Proof. unfold bind. destruct (m s) as [[a|] s1]; reflexivity. Qed.

Lemma bind_last_error {B} (k : DWORD -> M W B) (s : State W) :
  bind last_error k s = k (GetLastError (world s)) s.
Proof. reflexivity. Qed.

Lemma bind_tprintf {B} fmt args (k : unit -> M W B) (s : State W) :
  bind (_tprintf fmt args) k s =
  k tt (mkState (world s) (Stats s) (stdout s ++ [printed fmt args]) (calls s)).
Proof. reflexivity. Qed.

Lemma bind_update_Stats {B} f (k : unit -> M W B) (s : State W) :
  bind (update_Stats f) k s =
  k tt (mkState (world s) (f (Stats s)) (stdout s) (calls s)).
Proof. reflexivity. Qed.

Lemma bind_replace_target {B} Options d T (k : string -> M W B) (s : State W) :
  bind (replace_target Options d T) k s =
  k (StrReplace T (OldTargetBase Options) (NewTargetBase Options))
    (mkState (world s) (Stats s) (stdout s)
             (calls s ++ [(d, call_StrReplace T (OldTargetBase Options) (NewTargetBase Options))])).
Proof. reflexivity. Qed.

End Running.

Ltac decide_tests :=
  repeat match goal with
         | H : ?x <> 0 |- context [?x =? 0] =>
             destruct (Z.eqb_spec x 0) as [?E|_]; [contradiction|]
         | H : ?x = 0 |- context [?x =? 0] => rewrite H
         | H : ?x <> ?y |- context [?x =? ?y] =>
             destruct (Z.eqb_spec x y) as [?E|_]; [contradiction|]
         end.

(** Runs a computation forward through the calls whose answers are among
    the hypotheses. *)
Ltac run :=
  repeat first
    [ rewrite bind_assoc
    | rewrite bind_ret
    | rewrite bind_last_error
    | rewrite bind_tprintf
    | rewrite bind_update_Stats
    | rewrite bind_replace_target
    | rewrite Z.eqb_refl
    | erewrite bind_sys by (cbn [world]; eassumption)
    | progress decide_tests
    | progress cbn [world Stats stdout calls when negb andb fst snd Z.eqb] ].

(** C7 (as amended).  A reparse point for which both [IsJunction] and
    [IsSymlink] answer false is a skip exactly when [GetLastError] is zero
    after the two tests: the skip counter goes up by one, the diagnostic is
    printed and the visit returns zero.  When [GetLastError] is not zero the
    visit returns that code, the failed counter goes up by one and the skip
    counter stays. *)
Theorem fixlink_unrecognized_reparse_point :
  forall (W : Type) (os : Win32 W) (hdr : Headers) (Options : fixlinkOptions)
         (fuel : nat) (Path : string) (CurDepth : Z) (s : State W)
         (a : Z) (w1 w2 w3 : W),
    depth_guard Options CurDepth = false ->
    GetFileAttributesEx Path (world s) = (Some a, w1) ->
    Z.land a FILE_ATTRIBUTE_REPARSE_POINT <> 0 ->
    IsJunction Path w1 = (false, w2) ->
    IsSymlink Path w2 = (false, w3) ->
    let seen := calls s ++ [(CurDepth, call_GetFileAttributesEx Path);
                            (CurDepth, call_IsJunction Path);
                            (CurDepth, call_IsSymlink Path)] in
    (GetLastError w3 = 0 ->
     fixlink Options (S fuel) Path CurDepth s =
     (Some 0,
      mkState w3
              (mkStats (NumModified (Stats s)) (NumSkipped (Stats s) + 1) (NumFailed (Stats s)))
              (stdout s ++ [printed "Unrecognized reparse point: %s\n" [arg_s Path]])
              seen)) /\
    (GetLastError w3 <> 0 ->
     exists s',
       fixlink Options (S fuel) Path CurDepth s = (Some (GetLastError w3), s') /\
       world s' = w3 /\ calls s' = seen /\
       NumSkipped (Stats s') = NumSkipped (Stats s) /\
       NumFailed (Stats s') = NumFailed (Stats s) + 1).
Proof.
  intros W os hdr Options fuel Path d s a w1 w2 w3 G Ea Hr Ej El seen.
  rewrite (fixlink_attributes Options fuel Path d s a w1 G Ea).
  destruct (Z.eqb_spec (Z.land a FILE_ATTRIBUTE_REPARSE_POINT) 0) as [E|_]; [contradiction|].
  cbn [negb]. unfold fix_reparse_point, unrecognized. run.
  split; intros HE.
  - rewrite HE. run. cbn. unfold seen. rewrite <- !app_assoc. reflexivity.
  - destruct (Z.eqb_spec (GetLastError w3) 0) as [E|_]; [contradiction|].
    run.
    destruct (finish_failure (GetLastError w3) Path
                (mkState w3 (Stats s) (stdout s)
                   (((calls s ++ [(d, call_GetFileAttributesEx Path)])
                       ++ [(d, call_IsJunction Path)]) ++ [(d, call_IsSymlink Path)])) HE)
      as [s' [F [Fw [Fc [_ [Fs Ff]]]]]].
    exists s'. split; [exact F|]. cbn [world Stats calls] in *.
    repeat split; try assumption.
    rewrite Fc. unfold seen. rewrite <- !app_assoc. reflexivity.
Qed.

Lemma fixlink_unrecognized_reparse_point_witness :
  depth_guard Options_init 0 = false /\
  GetFileAttributesEx "C:\data\app" (world app_link) = (Some 1024, world app_link) /\
  Z.land 1024 FILE_ATTRIBUTE_REPARSE_POINT <> 0 /\
  IsJunction "C:\data\app" (world app_link) = (false, world app_link) /\
  IsSymlink "C:\data\app" (world app_link) = (false, world app_link) /\
  GetLastError (world app_link) = 0 /\
  fixlink Options_init 1 "C:\data\app" 0 app_link =
  (Some 0,
   mkState (world app_link) (mkStats 0 1 0)
           [printed "Unrecognized reparse point: %s\n" [arg_s "C:\data\app"]]
           [(0, call_GetFileAttributesEx "C:\data\app");
            (0, call_IsJunction "C:\data\app");
            (0, call_IsSymlink "C:\data\app")]).
Proof.
  assert (Hr : Z.land 1024 FILE_ATTRIBUTE_REPARSE_POINT <> 0) by (cbv; discriminate).
  split; [reflexivity | split; [reflexivity | split; [exact Hr |
    split; [reflexivity | split; [reflexivity | split; [reflexivity | ]]]]]].
  apply (fixlink_unrecognized_reparse_point
           Sim.machine Sim.win32 Sim.headers Options_init 0 "C:\data\app" 0 app_link
           1024 (world app_link) (world app_link) (world app_link)
           eq_refl eq_refl Hr eq_refl eq_refl).
  reflexivity.
Defined.

(** C7, as stated, fails: both tests answer false, yet the visit returns 5,
    counts a failure and leaves the skip counter at zero. *)
Lemma unrecognized_reparse_point_counted_as_failure :
  fst (GetFileAttributesEx "C:\data\app" (world app_link_locked)) = Some 1024 /\
  fst (IsJunction "C:\data\app" (world app_link_locked)) = false /\
  fst (IsSymlink "C:\data\app" (world app_link_locked)) = false /\
  fst (fixlink Options_init 1 "C:\data\app" 0 app_link_locked) = Some 5 /\
  Stats (snd (fixlink Options_init 1 "C:\data\app" 0 app_link_locked)) = mkStats 0 0 1 /\
  stdout (snd (fixlink Options_init 1 "C:\data\app" 0 app_link_locked)) =
    [printed "Access denied: %s.\n" [arg_s "C:\data\app"]].
Proof. repeat split. Qed.

Section Failures.

Context {W : Type} {os : Win32 W} {hdr : Headers}.
Variable Options : fixlinkOptions.


End Failures.



Section Reparse_point.

Context {W : Type} {os : Win32 W} {hdr : Headers}.
Variable Options : fixlinkOptions.

Ltac link_step :=
  first
    [ apply (keeps_ret _ (extends_refl _))
    | apply extends_tprintf
    | apply extends_update_Stats
    | apply extends_sys; split; [reflexivity | cbn [snd link_call]; auto]
    | apply (keeps_when _ (extends_refl _))
    | apply (keeps_bind _ (extends_trans _)); [ | intros ?]
    | match goal with
      | |- keeps _ (if ?b then _ else _) => destruct b
      | |- keeps _ (let (_, _) := ?x in _) => destruct x
      | |- keeps _ last_error => intros ?; apply extends_refl
      | |- keeps _ (PrintErrorMessage _ _) => unfold PrintErrorMessage
      end ].

Ltac total_step :=
  first
    [ apply total_ret
    | apply total_tprintf
    | apply total_update_Stats
    | apply total_last_error
    | apply total_PrintErrorMessage
    | apply total_sys
    | apply total_when
    | apply total_bind; [ | intros ?]
    | match goal with
      | |- total (if ?b then _ else _) => destruct b
      | |- total (let (_, _) := ?x in _) => destruct x
      end ].

Lemma link_calls_after_IsJunction Path d (j : bool) :
  keeps (extends (on_link Path d))
        (bind (if j then fix_junction Options Path d
               else bind (sys d (call_IsSymlink Path) (IsSymlink Path))
                         (fun l : bool => if l then fix_symlink Options Path d
                                          else unrecognized Path))
              (fun r => finish r Path)).
Proof.
  unfold fix_junction, fix_symlink, unrecognized, replace_target, finish,
    incr_NumSkipped, incr_NumFailed.
  repeat link_step.
Qed.

Lemma total_after_IsJunction Path d (j : bool) :
  total (bind (if j then fix_junction Options Path d
               else bind (sys d (call_IsSymlink Path) (IsSymlink Path))
                         (fun l : bool => if l then fix_symlink Options Path d
                                          else unrecognized Path))
              (fun r => finish r Path)).
Proof.
  unfold fix_junction, fix_symlink, unrecognized, replace_target, finish,
    incr_NumSkipped, incr_NumFailed.
  repeat total_step.
Qed.

Lemma reparse_point_not_entered fuel Path d (s : State W) a w1 :
  depth_guard Options d = false ->
  GetFileAttributesEx Path (world s) = (Some a, w1) ->
  Z.land a FILE_ATTRIBUTE_REPARSE_POINT <> 0 ->
  exists r s' rest,
    fixlink Options (S fuel) Path d s = (Some r, s') /\
    calls s' = calls s ++ (d, call_GetFileAttributesEx Path)
                       :: (d, call_IsJunction Path) :: rest /\
    Forall (fun e => fst e = d /\ link_call Path (snd e)) rest.
Proof.
  intros G Ea Hr.
  rewrite (fixlink_attributes Options fuel Path d s a w1 G Ea).
  destruct (Z.eqb_spec (Z.land a FILE_ATTRIBUTE_REPARSE_POINT) 0) as [E|_]; [contradiction|].
  cbn [negb]. unfold fix_reparse_point.
  destruct (IsJunction Path w1) as [j w2] eqn:Ej.
  rewrite bind_assoc. erewrite bind_sys by (cbn [world]; exact Ej).
  set (s2 := mkState w2 _ _ _).
  destruct (total_after_IsJunction Path d j s2) as [r Hr'].
  destruct (link_calls_after_IsJunction Path d j s2) as [rest [Ec Fc]].
  match goal with
  | |- exists r s' rest, ?m s2 = _ /\ _ => destruct (m s2) as [o s'] eqn:Em
  end.
  cbn [fst snd] in *. subst o.
  exists r, s', rest. split; [reflexivity | split; [|exact Fc]].
  rewrite Ec. unfold s2. cbn [calls]. rewrite <- !app_assoc. reflexivity.
Qed.

End Reparse_point.

(** C6.  When the attributes of an object carry both the directory bit and
    the reparse-point bit, the visit goes to the link branch: the call that
    follows the attribute query is [IsJunction] on the object, every later
    call of the visit is made at the same depth and concerns the link itself,
    so there is no [FindFirstFile], no [FindNextFile] and no visit of a child;
    the visit ends without any recursion. *)
Theorem fixlink_reparse_point_before_directory :
  forall (W : Type) (os : Win32 W) (hdr : Headers) (Options : fixlinkOptions)
         (fuel : nat) (Path : string) (CurDepth : Z) (s : State W) (a : Z) (w1 : W),
    depth_guard Options CurDepth = false ->
    GetFileAttributesEx Path (world s) = (Some a, w1) ->
    Z.land a FILE_ATTRIBUTE_DIRECTORY <> 0 ->
    Z.land a FILE_ATTRIBUTE_REPARSE_POINT <> 0 ->
    exists r s' rest,
      fixlink Options (S fuel) Path CurDepth s = (Some r, s') /\
      calls s' = calls s ++ (CurDepth, call_GetFileAttributesEx Path)
                         :: (CurDepth, call_IsJunction Path) :: rest /\
      Forall (fun e => fst e = CurDepth /\ link_call Path (snd e)) rest.
Proof.
  intros W os hdr Options fuel Path d s a w1 G Ea _ Hr.
  exact (reparse_point_not_entered Options fuel Path d s a w1 G Ea Hr).
Qed.

Lemma fixlink_reparse_point_before_directory_witness :
  depth_guard Options_init 1 = false /\
  GetFileAttributesEx "C:\data\L" (world data_with_junction)
    = (Some 1040, world data_with_junction) /\
  Z.land 1040 FILE_ATTRIBUTE_DIRECTORY <> 0 /\
  Z.land 1040 FILE_ATTRIBUTE_REPARSE_POINT <> 0 /\
  exists r s' rest,
    fixlink Options_init 1 "C:\data\L" 1 data_with_junction = (Some r, s') /\
    calls s' = calls data_with_junction
                 ++ (1, call_GetFileAttributesEx "C:\data\L")
                 :: (1, call_IsJunction "C:\data\L") :: rest /\
    Forall (fun e => fst e = 1 /\ link_call "C:\data\L" (snd e)) rest.
Proof.
  assert (Hd : Z.land 1040 FILE_ATTRIBUTE_DIRECTORY <> 0) by (cbv; discriminate).
  assert (Hr : Z.land 1040 FILE_ATTRIBUTE_REPARSE_POINT <> 0) by (cbv; discriminate).
  split; [reflexivity | split; [reflexivity | split; [exact Hd | split; [exact Hr | ]]]].
  exact (fixlink_reparse_point_before_directory
           Sim.machine Sim.win32 Sim.headers Options_init 0 "C:\data\L" 1
           data_with_junction 1040 (world data_with_junction) eq_refl eq_refl Hd Hr).
Defined.

(** ** Substitution *)

Module Substitution_facts.

Import StringUtils Substitution.













End Substitution_facts.




(** ** The driver *)

Section Driver_facts.

Context {W : Type} {os : Win32 W} {hdr : Headers}.

Lemma print_statistics_value (s : State W) :
  exists s', print_statistics s = (Some tt, s') /\
             Stats s' = Stats s /\ world s' = world s /\ calls s' = calls s /\
             stdout s' = stdout s ++ [printed "Modified: %d\n" [arg_d (NumModified (Stats s))];
                                      printed "Skipped: %d\n" [arg_d (NumSkipped (Stats s))];
                                      printed "Failed: %d\n" [arg_d (NumFailed (Stats s))]].
Proof.
  eexists. split; [reflexivity|]. cbn. repeat split. rewrite <- !app_assoc. reflexivity.
Qed.

(** [_tmain] from the point where the arguments are parsed. *)
Lemma tmain_parsed fuel Options_start indeterminate argv (s s1 : State W) p :
  parse_arguments (tl argv) 1 Options_start 4 s = (Some p, s1) ->
  _tmain fuel Options_start indeterminate argv s =
  match p with
  | parse_return code => (Some code, s1)
  | parse_continue Options _ =>
      if Z.of_nat (List.length argv) <? 4 then
        bind (_tprintf "Error: Missing argument(s).\n" [])
             (fun _ => bind PrintUsage (fun _ => ret 1)) s1
      else
        bind (visit_arguments fuel Options (tl argv) indeterminate)
             (fun result =>
                bind print_statistics
                     (fun _ => bind get_Stats
                                    (fun st => ret (int_of_DWORD
                                                      (if (result =? 0) && (NumFailed st >? 0)
                                                       then 1 else result))))) s1
  end.
Proof.
  intros E. unfold _tmain. rewrite (bind_value _ _ _ _ _ E).
  destruct p; [reflexivity|].
  destruct (Z.of_nat (List.length argv) <? 4); reflexivity.
Qed.

Lemma int_of_DWORD_nonzero r : 0 < r < 2 ^ 32 -> int_of_DWORD r <> 0.
Proof. intros H. unfold int_of_DWORD. destruct (Z.ltb_spec r (2 ^ 31)); lia. Qed.

(** Where the result of the second loop comes from: no argument was
    visited, or every visit returned zero, or it is what the visit of one of
    the arguments returned. *)
Lemma visit_arguments_result fuel Options args :
  forall result (s : State W) r s2,
    visit_arguments fuel Options args result s = (Some r, s2) ->
    r = result \/ r = 0 \/
    exists root sa sb, In root args /\ Ascii.eqb (char_at root 0) "/" = false /\
                       fixlink Options fuel root 0 sa = (Some r, sb).
Proof.
  induction args as [|arg rest IH]; intros result s r s2 E; cbn [visit_arguments] in E.
  - injection E as <- _. left. reflexivity.
  - destruct (Ascii.eqb (char_at arg 0) "/") eqn:Ha.
    + destruct (IH _ _ _ _ E) as [H|[H|[root [sa [sb [Hin H]]]]]]; auto.
      right. right. exists root, sa, sb. split; [right; exact Hin | exact H].
    + unfold bind in E. destruct (fixlink Options fuel arg 0 s) as [[r'|] s'] eqn:Ef;
        [|discriminate E].
      destruct (Z.eqb_spec r' 0) as [Hr|Hr]; cbn [negb] in E.
      * destruct (IH _ _ _ _ E) as [H|[H|[root [sa [sb [Hin H]]]]]].
        -- right. left. rewrite H. exact Hr.
        -- right. left. exact H.
        -- right. right. exists root, sa, sb. split; [right; exact Hin | exact H].
      * injection E as <- <-. right. right. exists arg, s, s'.
        split; [left; reflexivity | split; [exact Ha | exact Ef]].
Qed.

End Driver_facts.

(** C8 (as amended).  Once the parser has not left for [/VER] or [/?]:
    with fewer than four arguments the process exits with exactly 1.
    Otherwise let [r] be the result of the loop over the arguments.  When
    [r] is zero the exit code is 0 if the failed counter is not positive and
    exactly 1 if it is.  When [r] is not zero the exit code is [r] itself as
    an [int], not zero and 1 only if [r] is 1; such an [r] is what the visit
    of one of the roots returned (or what [result] held from the start, when
    no argument was visited at all). *)
Theorem tmain_exit_code :
  forall (W : Type) (os : Win32 W) (hdr : Headers) (fuel : nat)
         (Options_start : fixlinkOptions) (indeterminate : DWORD) (argv : list string)
         (s : State W) (Options : fixlinkOptions) (StartArgIdx : Z) (s1 : State W),
    parse_arguments (tl argv) 1 Options_start 4 s
      = (Some (parse_continue Options StartArgIdx), s1) ->
    ((List.length argv < 4)%nat ->
     exists s', _tmain fuel Options_start indeterminate argv s = (Some 1, s')) /\
    ((4 <= List.length argv)%nat ->
     forall r s2,
       visit_arguments fuel Options (tl argv) indeterminate s1 = (Some r, s2) ->
       exists s',
         _tmain fuel Options_start indeterminate argv s =
         (Some (if r =? 0 then (if NumFailed (Stats s2) >? 0 then 1 else 0)
                else int_of_DWORD r), s') /\
         Stats s' = Stats s2 /\
         (0 < r < 2 ^ 32 -> int_of_DWORD r <> 0) /\
         (r <> 0 ->
          r = indeterminate \/
          exists root sa sb,
            In root (tl argv) /\ Ascii.eqb (char_at root 0) "/" = false /\
            fixlink Options fuel root 0 sa = (Some r, sb))).
Proof.
  intros W os hdr fuel Options_start ind argv s Options idx s1 Ep.
  rewrite (tmain_parsed fuel Options_start ind argv s s1 _ Ep).
  split.
  - intros Hlen.
    replace (Z.of_nat (List.length argv) <? 4) with true by (symmetry; apply Z.ltb_lt; lia).
    eexists. reflexivity.
  - intros Hlen r s2 Ev.
    replace (Z.of_nat (List.length argv) <? 4) with false by (symmetry; apply Z.ltb_ge; lia).
    rewrite (bind_value _ _ _ _ _ Ev).
    destruct (print_statistics_value s2) as [s3 [Es [HS _]]].
    rewrite (bind_value _ _ _ _ _ Es).
    exists s3. split; [|split; [exact HS | split; [apply int_of_DWORD_nonzero|]]].
    2:{ intros Hr. destruct (visit_arguments_result _ _ _ _ _ _ _ Ev) as [H|[H|H]];
          [left; exact H | contradiction | right; exact H]. }
    unfold bind, get_Stats, ret. rewrite HS.
    destruct (Z.eqb_spec r 0) as [Er|Er].
    + subst r. cbn [andb]. destruct (NumFailed (Stats s2) >? 0); reflexivity.
    + reflexivity.
Qed.

Lemma tmain_exit_code_witness :
  parse_arguments (tl missing_root_argv) 1 Options_init 4 missing_root
    = (Some (parse_continue (mkOptions "C:\old" "C:\new" (-1) false) 3), missing_root) /\
  (4 <= List.length missing_root_argv)%nat /\
  exists s', _tmain 5 Options_init 0 missing_root_argv missing_root = (Some 2, s') /\
             Stats s' = mkStats 0 0 1.
Proof.
  assert (Hlen : (4 <= List.length missing_root_argv)%nat) by (cbv; repeat constructor).
  split; [reflexivity | split; [exact Hlen|]].
  destruct (tmain_exit_code Sim.machine Sim.win32 Sim.headers 5 Options_init 0
                            missing_root_argv missing_root
                            (mkOptions "C:\old" "C:\new" (-1) false) 3 missing_root eq_refl)
    as [_ H].
  assert (Ev : visit_arguments 5 (mkOptions "C:\old" "C:\new" (-1) false)
                               (tl missing_root_argv) 0 missing_root =
               (Some 2, snd (visit_arguments 5 (mkOptions "C:\old" "C:\new" (-1) false)
                                             (tl missing_root_argv) 0 missing_root)))
    by reflexivity.
  destruct (H Hlen 2 _ Ev) as [s' [E [HS _]]].
  exists s'. split; [exact E | exact HS].
Defined.

(** C8, as stated, fails: the root [C:\gone] does not exist, its visit
    returns 2 and the process exits with 2, not 1. *)
Lemma exit_code_is_the_error_code :
  fst (fixlink (mkOptions "C:\old" "C:\new" (-1) false) 5 "C:\gone" 0 missing_root) = Some 2 /\
  fst (_tmain 5 Options_init 0 missing_root_argv missing_root) = Some 2 /\
  Stats (snd (_tmain 5 Options_init 0 missing_root_argv missing_root)) = mkStats 0 0 1 /\
  calls (snd (_tmain 5 Options_init 0 missing_root_argv missing_root)) =
    [(0, call_GetFileAttributesEx "C:\old");
     (0, call_GetFileAttributesEx "C:\new");
     (0, call_GetFileAttributesEx "C:\gone")].
Proof. repeat split. Qed.

Section Bases.

Context {W : Type} {os : Win32 W} {hdr : Headers}.

Lemma parse_arguments_bases pre find replace paths :
  Forall passed_option pre ->
  no_option find ->
  forall i Options idx (s : State W),
  exists Options' idx',
    parse_arguments (pre ++ find :: replace :: paths) i Options idx s
      = (Some (parse_continue Options' idx'), s) /\
    OldTargetBase Options' = StringCchCopy sizeof_TargetBase (OldTargetBase Options) find /\
    NewTargetBase Options' = StringCchCopy sizeof_TargetBase (NewTargetBase Options) replace.
Proof.
  intros Hpre [Hv [Hh [Hl Hb]]]. induction Hpre as [|arg pre [Av [Ah Ao]] _ IH]; intros i Options idx s.
  - cbn [app parse_arguments]. rewrite Hv, Hh, Hl, Hb.
    eexists _, _. split; [reflexivity | split; reflexivity].
  - cbn [app parse_arguments]. rewrite Av, Ah.
    destruct (is_LEV arg) eqn:Al.
    + match goal with
      | |- context [parse_arguments _ ?i' ?o' ?x' s] => destruct (IH i' o' x' s) as [O' [x [E [E1 E2]]]]
      end.
      exists O', x. split; [exact E | split; assumption].
    + destruct Ao as [Ao|Ao]; [discriminate|]. rewrite Ao.
      match goal with
      | |- context [parse_arguments _ ?i' ?o' ?x' s] => destruct (IH i' o' x' s) as [O' [x [E [E1 E2]]]]
      end.
      exists O', x. split; [exact E | split; assumption].
Qed.

Lemma StringCchCopy_not_empty cch dst src :
  (2 <= cch)%nat -> src <> "" -> StringCchCopy cch dst src <> "".
Proof.
  intros Hc Hs. destruct cch as [|[|n]]; [lia | lia |].
  destruct src as [|c src]; [contradiction|]. simpl. discriminate.
Qed.

(** The calls of a whole run were issued under the options that the parser
    left. *)
Lemma tmain_calls_issued fuel Options_start indeterminate argv (s : State W) Options idx :
  parse_arguments (tl argv) 1 Options_start 4 s = (Some (parse_continue Options idx), s) ->
  extends (fun e => issued Options (fst e) (snd e)) s
          (snd (_tmain fuel Options_start indeterminate argv s)).
Proof.
  intros Ep. rewrite (tmain_parsed fuel Options_start indeterminate argv s s _ Ep).
  destruct (Z.of_nat (List.length argv) <? 4).
  - apply extends_same_calls. reflexivity.
  - apply (keeps_bind _ (extends_trans _)).
    + intros s0. apply visit_arguments_calls_issued.
    + intros r s0. apply extends_same_calls. reflexivity.
Qed.

End Bases.

(** C9 (as amended).  The program makes no check of the two bases.  On a
    command line whose arguments, after any [/LEV] and [/V] options, go on
    with a token [find] taken for no option and a token [replace] after it,
    every [StrReplace] of the run is given the copies of these two tokens that
    the parser stored; both are non-empty when [find] and [replace] are
    non-empty and the base buffers hold at least one character. *)
Theorem rewrite_uses_parsed_bases :
  forall (W : Type) (os : Win32 W) (hdr : Headers) (fuel : nat)
         (Options_start : fixlinkOptions) (indeterminate : DWORD)
         (prog : string) (pre : list string) (find replace : string) (paths : list string)
         (s : State W),
    Forall passed_option pre ->
    no_option find ->
    find <> "" ->
    replace <> "" ->
    (2 <= sizeof_TargetBase)%nat ->
    exists new,
      calls (snd (_tmain fuel Options_start indeterminate
                         (prog :: pre ++ find :: replace :: paths) s)) = calls s ++ new /\
      Forall (fun e => forall T o n,
                  snd e = call_StrReplace T o n ->
                  o = StringCchCopy sizeof_TargetBase (OldTargetBase Options_start) find /\
                  n = StringCchCopy sizeof_TargetBase (NewTargetBase Options_start) replace /\
                  o <> "" /\ n <> "") new.
Proof.
  intros W os hdr fuel Options_start ind prog pre find replace paths s Hpre Hfind Hf Hr Hsz.
  destruct (parse_arguments_bases pre find replace paths Hpre Hfind 1 Options_start 4 s)
    as [Options [idx [Ep [Eo En]]]].
  destruct (tmain_calls_issued fuel Options_start ind
              (prog :: pre ++ find :: replace :: paths) s Options idx Ep) as [new [Ec Fc]].
  exists new. split; [exact Ec|].
  eapply Forall_impl; [|exact Fc].
  intros [d c] [_ Hc] T o n E. cbn [snd] in *.
  destruct (Hc T o n E) as [-> ->]. rewrite Eo, En.
  repeat split; apply StringCchCopy_not_empty; assumption.
Qed.

Lemma rewrite_uses_parsed_bases_witness :
  Forall passed_option ["/V"] /\
  no_option "C:\old" /\
  "C:\old" <> "" /\ "C:\new" <> "" /\ (2 <= sizeof_TargetBase)%nat /\
  exists new,
    calls (snd (_tmain 5 Options_init 0 find_replace_argv old_new_and_junction)) = [] ++ new /\
    Forall (fun e => forall T o n,
                snd e = call_StrReplace T o n ->
                o = "C:\old" /\ n = "C:\new" /\ o <> "" /\ n <> "") new.
Proof.
  assert (H1 : Forall passed_option ["/V"])
    by (repeat constructor).
  assert (H2 : no_option "C:\old") by (repeat split).
  assert (H3 : "C:\old" <> "") by discriminate.
  assert (H4 : "C:\new" <> "") by discriminate.
  assert (H5 : (2 <= sizeof_TargetBase)%nat) by (cbv; repeat constructor).
  split; [exact H1 | split; [exact H2 | split; [exact H3 | split; [exact H4 | split; [exact H5|]]]]].
  exact (rewrite_uses_parsed_bases Sim.machine Sim.win32 Sim.headers 5 Options_init 0
           "fixlink" ["/V"] "C:\old" "C:\new" ["C:\data\L"] old_new_and_junction
           H1 H2 H3 H4 H5).
Defined.

(** C9, as stated, fails.  With two options and one path there are four
    arguments, the parser stores no base, and the junction is rewritten with
    both bases empty.  With an empty [replace] token the junction under
    [C:\data] is rewritten with an empty new base. *)
Lemma rewrite_with_empty_bases :
  fst (_tmain 5 Options_init 0 options_only_argv old_new_and_junction) = Some 0 /\
  calls (snd (_tmain 5 Options_init 0 options_only_argv old_new_and_junction)) =
    [(0, call_GetFileAttributesEx "C:\data\L");
     (0, call_IsJunction "C:\data\L");
     (0, call_GetJunctionTarget "C:\data\L");
     (0, call_StrReplace "C:\old\sub" "" "");
     (0, call_DeleteJunction "C:\data\L");
     (0, call_CreateJunction "C:\data\L" "C:\old\sub")] /\
  calls (snd (_tmain 5 Options_init 0 empty_replace_argv data_with_junction)) =
    [(0, call_GetFileAttributesEx "C:\data");
     (0, call_FindFirstFile "C:\data\*");
     (0, call_FindNextFile 0);
     (0, call_FindNextFile 0);
     (1, call_GetFileAttributesEx "C:\data\L");
     (1, call_IsJunction "C:\data\L");
     (1, call_GetJunctionTarget "C:\data\L");
     (1, call_StrReplace "C:\old\sub" "C:\data" "");
     (1, call_DeleteJunction "C:\data\L");
     (1, call_CreateJunction "C:\data\L" "C:\old\sub");
     (0, call_FindNextFile 0);
     (0, call_FindClose 0);
     (0, call_GetFileAttributesEx "")].
Proof. repeat split. Qed.

Section Summary.

Context {W : Type} {os : Win32 W} {hdr : Headers}.

Lemma parse_arguments_Stats args :
  forall i Options idx (s : State W),
    Stats (snd (parse_arguments args i Options idx s)) = Stats s.
Proof.
  induction args as [|arg rest IH]; intros i Options idx s; cbn [parse_arguments].
  - reflexivity.
  - destruct (is_VER arg); [reflexivity|].
    destruct (is_help arg); [reflexivity|].
    destruct (is_LEV arg); [apply IH|].
    destruct (is_V arg); [apply IH|].
    destruct rest; [apply IH | reflexivity].
Qed.

(** Whatever the run did, its [Modified] line shows the value the counter
    had when the program started. *)
Lemma Modified_line_shows_start_value
      fuel Options_start indeterminate argv (s : State W) Options idx s1 r s2 :
  parse_arguments (tl argv) 1 Options_start 4 s = (Some (parse_continue Options idx), s1) ->
  (4 <= List.length argv)%nat ->
  visit_arguments fuel Options (tl argv) indeterminate s1 = (Some r, s2) ->
  stdout (snd (_tmain fuel Options_start indeterminate argv s)) =
  stdout s2 ++ [printed "Modified: %d\n" [arg_d (NumModified (Stats s))];
                printed "Skipped: %d\n" [arg_d (NumSkipped (Stats s2))];
                printed "Failed: %d\n" [arg_d (NumFailed (Stats s2))]].
Proof.
  intros Ep Hlen Ev.
  rewrite (tmain_parsed fuel Options_start indeterminate argv s s1 _ Ep).
  replace (Z.of_nat (List.length argv) <? 4) with false by (symmetry; apply Z.ltb_ge; lia).
  rewrite (bind_value _ _ _ _ _ Ev).
  destruct (print_statistics_value s2) as [s3 [Es [_ [_ [_ Ho]]]]].
  rewrite (bind_value _ _ _ _ _ Es). cbn [bind get_Stats ret snd].
  rewrite Ho.
  pose proof (visit_arguments_same_NumModified Options fuel (tl argv) indeterminate s1) as Hv.
  rewrite Ev in Hv. cbn [snd] in Hv. rewrite Hv.
  pose proof (parse_arguments_Stats (tl argv) 1 Options_start 4 s) as Hp.
  rewrite Ep in Hp. cbn [snd] in Hp. rewrite Hp. reflexivity.
Qed.

End Summary.

(** C1: the code at a failing input.  [C:\old] and [C:\new] exist, the
    junction [C:\data\L] is deleted and created again with its new target,
    both with success, nothing is skipped and nothing fails; the summary
    shows [Modified: 0] where the claim has 1.  No statement of the program
    adds to [Stats.NumModified] (see [Modified_line_shows_start_value]). *)
Theorem summary_after_one_rewrite :
  fst (_tmain 5 Options_init 0 usual_argv old_new_and_junction) = Some 0 /\
  calls (snd (_tmain 5 Options_init 0 usual_argv old_new_and_junction)) =
    [(0, call_GetFileAttributesEx "C:\old");
     (0, call_GetFileAttributesEx "C:\new");
     (0, call_GetFileAttributesEx "C:\data");
     (0, call_FindFirstFile "C:\data\*");
     (0, call_FindNextFile 0);
     (0, call_FindNextFile 0);
     (1, call_GetFileAttributesEx "C:\data\L");
     (1, call_IsJunction "C:\data\L");
     (1, call_GetJunctionTarget "C:\data\L");
     (1, call_StrReplace "C:\old\sub" "C:\old" "C:\new");
     (1, call_DeleteJunction "C:\data\L");
     (1, call_CreateJunction "C:\data\L" "C:\new\sub");
     (0, call_FindNextFile 0);
     (0, call_FindClose 0)] /\
  Sim.lookup "C:\data\L"
             (Sim.files (world (snd (_tmain 5 Options_init 0 usual_argv old_new_and_junction))))
    = Some (Sim.junction "C:\new\sub") /\
  stdout (snd (_tmain 5 Options_init 0 usual_argv old_new_and_junction)) =
    [printed "Modified: %d\n" [arg_d 0];
     printed "Skipped: %d\n" [arg_d 0];
     printed "Failed: %d\n" [arg_d 0]].
Proof. repeat split. Qed.

(** C2: the code at a failing input.  The parser takes [C:\old] and
    [C:\new] for the two bases and sets [StartArgIdx] to 3, but the second
    loop starts at [argv[1]]: the first visit is that of [C:\old], which
    does not exist, and the run ends there with exit code 2; the root
    [C:\data] is never visited. *)
Theorem find_token_visited_as_root :
  fst (parse_arguments (tl usual_argv) 1 Options_init 4 data_with_junction)
    = Some (parse_continue (mkOptions "C:\old" "C:\new" (-1) false) 3) /\
  fst (_tmain 5 Options_init 0 usual_argv data_with_junction) = Some 2 /\
  calls (snd (_tmain 5 Options_init 0 usual_argv data_with_junction)) =
    [(0, call_GetFileAttributesEx "C:\old")] /\
  stdout (snd (_tmain 5 Options_init 0 usual_argv data_with_junction)) =
    [printed "File not found: %s.\n" [arg_s "C:\old"];
     printed "Modified: %d\n" [arg_d 0];
     printed "Skipped: %d\n" [arg_d 0];
     printed "Failed: %d\n" [arg_d 1]].
Proof. repeat split. Qed.

(** * Further properties of the code *)

(** ** The counters *)

Section Counters.

Context {W : Type} {os : Win32 W} {hdr : Headers}.

Lemma counters_grow_refl (s : State W) : counters_grow s s.
Proof. unfold counters_grow. repeat split; lia. Qed.

Lemma counters_grow_trans (a b c : State W) :
  counters_grow a b -> counters_grow b c -> counters_grow a c.
Proof. unfold counters_grow. intros [H1 [H2 H3]] [H4 [H5 H6]]. repeat split; lia. Qed.

Lemma counters_grow_same_Stats (s s' : State W) :
  Stats s' = Stats s -> counters_grow s s'.
Proof. intros E. unfold counters_grow. rewrite E. repeat split; lia. Qed.

Lemma counters_grow_sys {A} d c (f : W -> A * W) : keeps counters_grow (sys d c f).
Proof.
  intros s. unfold sys. destruct (f (world s)). apply counters_grow_same_Stats. reflexivity.
Qed.

Lemma counters_grow_tprintf fmt args : keeps (W := W) counters_grow (_tprintf fmt args).
Proof. intros s. apply counters_grow_same_Stats. reflexivity. Qed.

Lemma counters_grow_NumSkipped : keeps (W := W) counters_grow incr_NumSkipped.
Proof. intros s. unfold counters_grow. cbn. repeat split; lia. Qed.

Lemma counters_grow_NumFailed : keeps (W := W) counters_grow incr_NumFailed.
Proof. intros s. unfold counters_grow. cbn. repeat split; lia. Qed.

Lemma fixlink_counters_grow Options fuel Path d (s : State W) :
  counters_grow s (snd (fixlink Options fuel Path d s)).
Proof.
  apply (keeps_fixlink Options counters_grow counters_grow_refl counters_grow_trans).
  - intros. apply counters_grow_sys.
  - apply counters_grow_tprintf.
  - apply counters_grow_NumSkipped.
  - apply counters_grow_NumFailed.
Qed.

Lemma enumerate_counters_grow Options fuel Path d h ffd r (s : State W) :
  depth_guard Options d = false ->
  counters_grow s (snd (enumerate Options fuel Path d h ffd r s)).
Proof.
  intros G.
  apply (keeps_fixlink_enumerate Options counters_grow counters_grow_refl counters_grow_trans);
    [intros; apply counters_grow_sys | apply counters_grow_tprintf
     | apply counters_grow_NumSkipped | apply counters_grow_NumFailed | exact G].
Qed.

Lemma visit_arguments_counters_grow Options fuel args r (s : State W) :
  counters_grow s (snd (visit_arguments fuel Options args r s)).
Proof.
  apply (keeps_visit_arguments Options counters_grow counters_grow_refl counters_grow_trans).
  - intros. apply counters_grow_sys.
  - apply counters_grow_tprintf.
  - apply counters_grow_NumSkipped.
  - apply counters_grow_NumFailed.
Qed.

(** What the visit does between the attribute query and the last lines. *)
Lemma body_counters_grow Options fuel Path d (a : option Z) :
  depth_guard Options d = false ->
  keeps (W := W) counters_grow
    (match a with
     | Some dwFileAttributes =>
         if negb (Z.land dwFileAttributes FILE_ATTRIBUTE_REPARSE_POINT =? 0) then
           fix_reparse_point Options Path d
         else if negb (Z.land dwFileAttributes FILE_ATTRIBUTE_DIRECTORY =? 0) then
           bind (sys d (call_FindFirstFile (search_path Path))
                     (FindFirstFile (search_path Path)))
                (fun x => let '(hFind, ffd) := x in
                   if negb (hFind =? INVALID_HANDLE_VALUE) then
                     bind (enumerate Options fuel Path d hFind ffd 0)
                          (fun result =>
                             bind (sys d (call_FindClose hFind)
                                       (fun w => (tt, FindClose hFind w)))
                                  (fun _ => ret result))
                   else enumeration_failed Path 0)
         else ret 0
     | None => last_error
     end).
Proof.
  intros G. destruct a as [attrs|]; [|intros s; apply counters_grow_refl].
  destruct (negb (Z.land attrs FILE_ATTRIBUTE_REPARSE_POINT =? 0)).
  - apply (keeps_fix_reparse_point Options counters_grow counters_grow_refl counters_grow_trans);
      [intros; apply counters_grow_sys | apply counters_grow_tprintf
       | apply counters_grow_NumSkipped | exact G].
  - destruct (negb (Z.land attrs FILE_ATTRIBUTE_DIRECTORY =? 0));
      [|apply (keeps_ret _ counters_grow_refl)].
    apply (keeps_bind _ counters_grow_trans); [apply counters_grow_sys | intros [h ffd]].
    destruct (negb (h =? INVALID_HANDLE_VALUE)).
    + apply (keeps_bind _ counters_grow_trans);
        [intros s; apply enumerate_counters_grow; exact G | intros r].
      apply (keeps_bind _ counters_grow_trans); [apply counters_grow_sys | intros _].
      apply (keeps_ret _ counters_grow_refl).
    + apply (keeps_enumeration_failed counters_grow counters_grow_refl counters_grow_trans);
        [apply counters_grow_tprintf | apply counters_grow_NumSkipped].
Qed.

(** A completed visit that returns a non-zero code has added to the failed
    counter. *)
Lemma nonzero_counted Options fuel Path d (s : State W) r s' :
  fixlink Options fuel Path d s = (Some r, s') ->
  r <> 0 ->
  NumFailed (Stats s) + 1 <= NumFailed (Stats s').
Proof.
  intros E Hr. destruct fuel as [|fuel]; [discriminate E|].
  cbn [fixlink] in E. destruct (depth_guard Options d) eqn:G.
  - injection E as <- _. contradiction.
  - unfold bind at 1 in E. unfold sys at 1 in E.
    destruct (GetFileAttributesEx Path (world s)) as [a w1].
    set (s1 := mkState w1 _ _ _) in E.
    unfold bind in E at 1.
    match type of E with
    | match ?m s1 with _ => _ end = _ =>
        assert (Hb : counters_grow s1 (snd (m s1)))
          by exact (body_counters_grow Options fuel Path d a G s1);
        destruct (m s1) as [[r0|] s2]
    end; [|discriminate E].
    cbn [snd] in Hb. destruct Hb as [_ [_ Hf]].
    destruct (Z.eqb_spec r0 0) as [E0|E0].
    + subst r0. rewrite finish_zero in E. injection E as <- _. contradiction.
    + destruct (finish_failure r0 Path s2 E0) as [s3 [F [_ [_ [_ [_ Ff]]]]]].
      rewrite F in E. injection E as _ <-. rewrite Ff. unfold s1 in Hf. cbn [Stats] in Hf. lia.
Qed.

End Counters.

(** X1.  During any visit, complete or cut off, and during the whole loop
    over the arguments, [Stats.NumModified] keeps its value and
    [Stats.NumSkipped] and [Stats.NumFailed] never go down. *)
Theorem counters_never_go_down :
  forall (W : Type) (os : Win32 W) (hdr : Headers) (Options : fixlinkOptions)
         (fuel : nat) (s : State W),
    (forall Path CurDepth, counters_grow s (snd (fixlink Options fuel Path CurDepth s))) /\
    (forall args result, counters_grow s (snd (visit_arguments fuel Options args result s))).
Proof.
  intros W os hdr Options fuel s. split.
  - intros Path d. apply fixlink_counters_grow.
  - intros args r. apply visit_arguments_counters_grow.
Qed.

(** X2.  A visit that completes with a non-zero result has added at least
    one to the failed counter, at whatever depth the failure arose. *)
Theorem nonzero_result_is_counted :
  forall (W : Type) (os : Win32 W) (hdr : Headers) (Options : fixlinkOptions)
         (fuel : nat) (Path : string) (CurDepth : Z) (s : State W) (r : DWORD) (s' : State W),
    fixlink Options fuel Path CurDepth s = (Some r, s') ->
    r <> 0 ->
    NumFailed (Stats s) + 1 <= NumFailed (Stats s').
Proof.
  intros W os hdr Options fuel Path d s r s' E Hr.
  exact (nonzero_counted Options fuel Path d s r s' E Hr).
Qed.

Lemma nonzero_result_is_counted_witness :
  fixlink Options_init 8 "C:\data" 0 one_locked_child
    = (Some 5, snd (fixlink Options_init 8 "C:\data" 0 one_locked_child)) /\
  5 <> 0 /\
  NumFailed (Stats one_locked_child) + 1
    <= NumFailed (Stats (snd (fixlink Options_init 8 "C:\data" 0 one_locked_child))).
Proof.
  assert (E : fixlink Options_init 8 "C:\data" 0 one_locked_child
              = (Some 5, snd (fixlink Options_init 8 "C:\data" 0 one_locked_child)))
    by reflexivity.
  assert (H5 : 5 <> 0) by discriminate.
  split; [exact E | split; [exact H5|]].
  exact (nonzero_result_is_counted Sim.machine Sim.win32 Sim.headers Options_init 8
           "C:\data" 0 one_locked_child 5 _ E H5).
Defined.

(** ** The loop over a directory *)


Section Directory.

Context {W : Type} {os : Win32 W} {hdr : Headers}.
Variable Options : fixlinkOptions.

Lemma bind_stopped {A B} (m : M W A) (k : A -> M W B) (s s1 : State W) :
  m s = (None, s1) -> bind m k s = (None, s1).
Proof. intros E. unfold bind. rewrite E. reflexivity. Qed.




(** The loop at the depth limit: every visit of an entry is stopped by the
    guard. *)
Lemma enumerate_at_limit Path d h :
  depth_guard Options (d + 1) = true ->
  forall fuel ffd (s : State W) r s',
    enumerate Options fuel Path d h ffd 0 s = (Some r, s') ->
    r = 0 /\ Stats s' = Stats s /\ stdout s' = stdout s /\
    exists n, calls s' = calls s ++ repeat (d, call_FindNextFile h) n.
Proof.
  intros G. induction fuel as [|fuel IH]; intros ffd s r s' E; [discriminate E|].
  cbn [enumerate] in E.
  assert (Hstep :
            (if ignored_name (cFileName ffd) then ret 0
             else if directory_or_reparse (ffd_dwFileAttributes ffd)
                  then fixlink Options fuel (child_path Path (cFileName ffd)) (d + 1)
                  else ret 0) s = (Some 0, s) \/
            (if ignored_name (cFileName ffd) then ret 0
             else if directory_or_reparse (ffd_dwFileAttributes ffd)
                  then fixlink Options fuel (child_path Path (cFileName ffd)) (d + 1)
                  else ret 0) s = (None, s)).
  { destruct (ignored_name (cFileName ffd)); [left; reflexivity|].
    destruct (directory_or_reparse (ffd_dwFileAttributes ffd)); [|left; reflexivity].
    destruct fuel as [|fuel']; [right; reflexivity|].
    left. cbn [fixlink]. rewrite G. reflexivity. }
  destruct Hstep as [Hstep|Hstep].
  - rewrite (bind_value _ _ _ _ _ Hstep) in E.
    unfold bind at 1 in E. unfold sys at 1 in E.
    destruct (FindNextFile h (world s)) as [[ffd'|] w'].
    + destruct (IH ffd' _ r s' E) as [Hr [HS [Ho [n Hc]]]].
      cbn [Stats stdout calls] in *.
      split; [exact Hr | split; [exact HS | split; [exact Ho|]]].
      exists (S n). rewrite Hc, <- app_assoc. reflexivity.
    + injection E as <- <-. cbn [Stats stdout calls].
      repeat split. exists 1%nat. reflexivity.
  - rewrite (bind_stopped _ _ _ _ Hstep) in E. discriminate E.
Qed.

End Directory.





(** X6.  A plain directory visited at the depth limit ([CurDepth] passes the
    guard, [CurDepth + 1] does not) is listed and nothing more: a completed
    visit returns zero, the counters and the output are as before, and after
    [FindFirstFile] the only calls are [FindNextFile] and the closing
    [FindClose]; no entry is queried and no link is read, deleted or
    created. *)
Theorem directory_at_depth_limit_is_only_listed :
  forall (W : Type) (os : Win32 W) (hdr : Headers) (Options : fixlinkOptions)
         (fuel : nat) (Path : string) (CurDepth : Z) (s : State W) (a : Z) (w1 : W)
         (hFind : HANDLE) (ffd : WIN32_FIND_DATA) (w2 : W) (r : DWORD) (s' : State W),
    depth_guard Options CurDepth = false ->
    depth_guard Options (CurDepth + 1) = true ->
    GetFileAttributesEx Path (world s) = (Some a, w1) ->
    Z.land a FILE_ATTRIBUTE_REPARSE_POINT = 0 ->
    Z.land a FILE_ATTRIBUTE_DIRECTORY <> 0 ->
    FindFirstFile (search_path Path) w1 = ((hFind, ffd), w2) ->
    hFind <> INVALID_HANDLE_VALUE ->
    fixlink Options fuel Path CurDepth s = (Some r, s') ->
    r = 0 /\ Stats s' = Stats s /\ stdout s' = stdout s /\
    exists n,
      calls s' = calls s ++ [(CurDepth, call_GetFileAttributesEx Path);
                             (CurDepth, call_FindFirstFile (search_path Path))]
                         ++ repeat (CurDepth, call_FindNextFile hFind) n
                         ++ [(CurDepth, call_FindClose hFind)].
Proof.
  intros W os hdr Options fuel Path d s a w1 h ffd w2 r s' G G1 Ea Hr Hd Ef Hh E.
  destruct fuel as [|fuel]; [discriminate E|].
  rewrite (fixlink_attributes Options fuel Path d s a w1 G Ea) in E.
  rewrite Hr in E. cbn [Z.eqb negb] in E.
  destruct (Z.eqb_spec (Z.land a FILE_ATTRIBUTE_DIRECTORY) 0) as [E0|_]; [contradiction|].
  cbn [negb] in E. rewrite bind_assoc in E.
  erewrite bind_sys in E by (cbn [world]; exact Ef).
  cbn beta iota in E.
  destruct (Z.eqb_spec h INVALID_HANDLE_VALUE) as [E0|_]; [contradiction|].
  cbn [negb world Stats stdout calls] in E. rewrite bind_assoc in E.
  unfold bind at 1 in E.
  match type of E with
  | match enumerate _ _ _ _ _ _ _ ?st with _ => _ end = _ =>
      destruct (enumerate Options fuel Path d h ffd 0 st) as [[r0|] s3] eqn:Ee
  end; [|discriminate E].
  destruct (enumerate_at_limit Options Path d h G1 fuel ffd _ r0 s3 Ee)
    as [-> [HS [Ho [n Hc]]]].
  rewrite bind_assoc in E. erewrite bind_sys in E by reflexivity.
  rewrite bind_ret, finish_zero in E. injection E as <- <-.
  cbn [Stats stdout calls] in *.
  split; [reflexivity | split; [exact HS | split; [exact Ho|]]].
  exists n. rewrite Hc, <- !app_assoc. reflexivity.
Qed.

Lemma directory_at_depth_limit_is_only_listed_witness :
  depth_guard top_level_only 0 = false /\
  depth_guard top_level_only (0 + 1) = true /\
  fst (fixlink top_level_only 8 "C:\data" 0 data_with_junction) = Some 0 /\
  Stats (snd (fixlink top_level_only 8 "C:\data" 0 data_with_junction)) = Stats_init /\
  exists n,
    calls (snd (fixlink top_level_only 8 "C:\data" 0 data_with_junction)) =
    [] ++ [(0, call_GetFileAttributesEx "C:\data");
           (0, call_FindFirstFile (search_path "C:\data"))]
       ++ repeat (0, call_FindNextFile 0) n ++ [(0, call_FindClose 0)].
Proof.
  set (w2 := snd (FindFirstFile "C:\data\*" (world data_with_junction))).
  set (s' := snd (fixlink top_level_only 8 "C:\data" 0 data_with_junction)).
  assert (Hd : Z.land 16 FILE_ATTRIBUTE_DIRECTORY <> 0) by (cbv; discriminate).
  assert (Hh : 0 <> INVALID_HANDLE_VALUE) by discriminate.
  assert (Ef : FindFirstFile (search_path "C:\data") (world data_with_junction)
               = ((0, mkFindData "." 16), w2)) by reflexivity.
  assert (E : fixlink top_level_only 8 "C:\data" 0 data_with_junction = (Some 0, s'))
    by reflexivity.
  destruct (directory_at_depth_limit_is_only_listed
              Sim.machine Sim.win32 Sim.headers top_level_only 8 "C:\data" 0
              data_with_junction 16 (world data_with_junction) 0 (mkFindData "." 16) w2
              0 s' eq_refl eq_refl eq_refl eq_refl Hd Ef Hh E)
    as [_ [HS [_ Hc]]].
  split; [reflexivity | split; [reflexivity | split; [reflexivity | split; [exact HS | exact Hc]]]].
Defined.

(** ** The steps of a rewrite *)

Section Rewrite_steps.

Context {W : Type} {os : Win32 W} {hdr : Headers}.
Variable Options : fixlinkOptions.



(** The visit of a junction up to the step that fails. *)
Lemma junction_steps fuel Path d (s : State W) a w1 w2 e1 T w3 :
  depth_guard Options d = false ->
  GetFileAttributesEx Path (world s) = (Some a, w1) ->
  Z.land a FILE_ATTRIBUTE_REPARSE_POINT <> 0 ->
  IsJunction Path w1 = (true, w2) ->
  GetJunctionTarget Path w2 = ((e1, T), w3) ->
  let NewTarget := StrReplace T (OldTargetBase Options) (NewTargetBase Options) in
  let read := calls s ++ [(d, call_GetFileAttributesEx Path);
                          (d, call_IsJunction Path);
                          (d, call_GetJunctionTarget Path)] in
  (e1 <> 0 ->
   fixlink Options (S fuel) Path d s =
   finish e1 Path (mkState w3 (Stats s) (stdout s) read)) /\
  (e1 = 0 ->
   forall e2 w4,
     DeleteJunction Path w3 = (e2, w4) ->
     let deleted := read ++ [(d, call_StrReplace T (OldTargetBase Options)
                                                 (NewTargetBase Options));
                             (d, call_DeleteJunction Path)] in
     (e2 <> 0 ->
      fixlink Options (S fuel) Path d s =
      finish e2 Path (mkState w4 (Stats s) (stdout s) deleted)) /\
     (e2 = 0 ->
      forall e3 w5,
        CreateJunction Path NewTarget w4 = (e3, w5) ->
        e3 <> 0 ->
        fixlink Options (S fuel) Path d s =
        finish e3 Path (mkState w5 (Stats s) (stdout s)
                                (deleted ++ [(d, call_CreateJunction Path NewTarget)])))).
Proof.
  intros G Ea Hr Ej Et NewTarget read.
  rewrite (fixlink_attributes Options fuel Path d s a w1 G Ea).
  unfold fix_reparse_point, fix_junction. split.
  - intros H1. run. unfold read. rewrite <- !app_assoc. reflexivity.
  - intros -> e2 w4 Ed. split.
    + intros H2. run. unfold read. rewrite <- !app_assoc. reflexivity.
    + intros -> e3 w5 Ec H3. run.
      fold NewTarget. run. unfold read. rewrite <- !app_assoc. reflexivity.
Qed.

(** The same for a symbolic link. *)
Lemma symlink_steps fuel Path d (s : State W) a w1 w2 w2' e1 T w3 :
  depth_guard Options d = false ->
  GetFileAttributesEx Path (world s) = (Some a, w1) ->
  Z.land a FILE_ATTRIBUTE_REPARSE_POINT <> 0 ->
  IsJunction Path w1 = (false, w2) ->
  IsSymlink Path w2 = (true, w2') ->
  GetSymlinkTarget Path w2' = ((e1, T), w3) ->
  let NewTarget := StrReplace T (OldTargetBase Options) (NewTargetBase Options) in
  let read := calls s ++ [(d, call_GetFileAttributesEx Path);
                          (d, call_IsJunction Path);
                          (d, call_IsSymlink Path);
                          (d, call_GetSymlinkTarget Path)] in
  (e1 <> 0 ->
   fixlink Options (S fuel) Path d s =
   finish e1 Path (mkState w3 (Stats s) (stdout s) read)) /\
  (e1 = 0 ->
   forall e2 w4,
     DeleteSymlink Path w3 = (e2, w4) ->
     let deleted := read ++ [(d, call_StrReplace T (OldTargetBase Options)
                                                 (NewTargetBase Options));
                             (d, call_DeleteSymlink Path)] in
     (e2 <> 0 ->
      fixlink Options (S fuel) Path d s =
      finish e2 Path (mkState w4 (Stats s) (stdout s) deleted)) /\
     (e2 = 0 ->
      forall e3 w5,
        CreateSymlink Path NewTarget w4 = (e3, w5) ->
        e3 <> 0 ->
        fixlink Options (S fuel) Path d s =
        finish e3 Path (mkState w5 (Stats s) (stdout s)
                                (deleted ++ [(d, call_CreateSymlink Path NewTarget)])))).
Proof.
  intros G Ea Hr Ej El Et NewTarget read.
  rewrite (fixlink_attributes Options fuel Path d s a w1 G Ea).
  unfold fix_reparse_point, fix_symlink. split.
  - intros H1. run. unfold read. rewrite <- !app_assoc. reflexivity.
  - intros -> e2 w4 Ed. split.
    + intros H2. run. unfold read. rewrite <- !app_assoc. reflexivity.
    + intros -> e3 w5 Ec H3. run.
      fold NewTarget. run. unfold read. rewrite <- !app_assoc. reflexivity.
Qed.

(** The end of a failing visit: the code is returned, the machine and the
    record of calls stay as the failing step left them. *)
Lemma finish_keeps_world_and_calls e Path (w : W) st out cs :
  e <> 0 ->
  exists s', finish e Path (mkState w st out cs) = (Some e, s') /\
             world s' = w /\ calls s' = cs.
Proof.
  intros He. destruct (finish_failure e Path (mkState w st out cs) He)
    as [s' [F [Fw [Fc _]]]].
  exists s'. split; [exact F | split; [exact Fw | exact Fc]].
Qed.

End Rewrite_steps.



(** X8.  The steps of a rewrite come one after the other and the first one
    that fails is the last one made.  When the target of a junction or of a
    symbolic link cannot be read, the visit returns the code without calling
    [StrReplace], the delete or the create: the link is not touched.  When
    the delete fails, the create is not called. *)
Theorem rewrite_stops_at_failed_step :
  forall (W : Type) (os : Win32 W) (hdr : Headers) (Options : fixlinkOptions)
         (fuel : nat) (Path : string) (CurDepth : Z) (s : State W) (a : Z) (w1 : W),
    depth_guard Options CurDepth = false ->
    GetFileAttributesEx Path (world s) = (Some a, w1) ->
    Z.land a FILE_ATTRIBUTE_REPARSE_POINT <> 0 ->
    (forall w2 e T w3,
        IsJunction Path w1 = (true, w2) ->
        GetJunctionTarget Path w2 = ((e, T), w3) ->
        e <> 0 ->
        exists s',
          fixlink Options (S fuel) Path CurDepth s = (Some e, s') /\ world s' = w3 /\
          calls s' = calls s ++ [(CurDepth, call_GetFileAttributesEx Path);
                                 (CurDepth, call_IsJunction Path);
                                 (CurDepth, call_GetJunctionTarget Path)]) /\
    (forall w2 T w3 e w4,
        IsJunction Path w1 = (true, w2) ->
        GetJunctionTarget Path w2 = ((0, T), w3) ->
        DeleteJunction Path w3 = (e, w4) ->
        e <> 0 ->
        exists s',
          fixlink Options (S fuel) Path CurDepth s = (Some e, s') /\ world s' = w4 /\
          calls s' = calls s ++ [(CurDepth, call_GetFileAttributesEx Path);
                                 (CurDepth, call_IsJunction Path);
                                 (CurDepth, call_GetJunctionTarget Path);
                                 (CurDepth, call_StrReplace T (OldTargetBase Options)
                                                            (NewTargetBase Options));
                                 (CurDepth, call_DeleteJunction Path)]) /\
    (forall w2 w2' e T w3,
        IsJunction Path w1 = (false, w2) ->
        IsSymlink Path w2 = (true, w2') ->
        GetSymlinkTarget Path w2' = ((e, T), w3) ->
        e <> 0 ->
        exists s',
          fixlink Options (S fuel) Path CurDepth s = (Some e, s') /\ world s' = w3 /\
          calls s' = calls s ++ [(CurDepth, call_GetFileAttributesEx Path);
                                 (CurDepth, call_IsJunction Path);
                                 (CurDepth, call_IsSymlink Path);
                                 (CurDepth, call_GetSymlinkTarget Path)]) /\
    (forall w2 w2' T w3 e w4,
        IsJunction Path w1 = (false, w2) ->
        IsSymlink Path w2 = (true, w2') ->
        GetSymlinkTarget Path w2' = ((0, T), w3) ->
        DeleteSymlink Path w3 = (e, w4) ->
        e <> 0 ->
        exists s',
          fixlink Options (S fuel) Path CurDepth s = (Some e, s') /\ world s' = w4 /\
          calls s' = calls s ++ [(CurDepth, call_GetFileAttributesEx Path);
                                 (CurDepth, call_IsJunction Path);
                                 (CurDepth, call_IsSymlink Path);
                                 (CurDepth, call_GetSymlinkTarget Path);
                                 (CurDepth, call_StrReplace T (OldTargetBase Options)
                                                            (NewTargetBase Options));
                                 (CurDepth, call_DeleteSymlink Path)]).
Proof.
  intros W os hdr Options fuel Path d s a w1 G Ea Hr. repeat apply conj.
  - intros w2 e T w3 Ej Et He.
    destruct (junction_steps Options fuel Path d s a w1 w2 e T w3 G Ea Hr Ej Et) as [H _].
    rewrite (H He). apply finish_keeps_world_and_calls. exact He.
  - intros w2 T w3 e w4 Ej Et Ed He.
    destruct (junction_steps Options fuel Path d s a w1 w2 0 T w3 G Ea Hr Ej Et) as [_ H].
    destruct (H eq_refl e w4 Ed) as [H' _]. rewrite (H' He).
    rewrite <- app_assoc. apply finish_keeps_world_and_calls. exact He.
  - intros w2 w2' e T w3 Ej El Et He.
    destruct (symlink_steps Options fuel Path d s a w1 w2 w2' e T w3 G Ea Hr Ej El Et)
      as [H _].
    rewrite (H He). apply finish_keeps_world_and_calls. exact He.
  - intros w2 w2' T w3 e w4 Ej El Et Ed He.
    destruct (symlink_steps Options fuel Path d s a w1 w2 w2' 0 T w3 G Ea Hr Ej El Et)
      as [_ H].
    destruct (H eq_refl e w4 Ed) as [H' _]. rewrite (H' He).
    rewrite <- app_assoc. apply finish_keeps_world_and_calls. exact He.
Qed.

Lemma rewrite_stops_at_failed_step_witness :
  exists s',
    fixlink Options_init 1 "C:\data\L" 0 junction_unreadable = (Some 5, s') /\
    world s' = world junction_unreadable /\
    calls s' = calls junction_unreadable
                 ++ [(0, call_GetFileAttributesEx "C:\data\L");
                     (0, call_IsJunction "C:\data\L");
                     (0, call_GetJunctionTarget "C:\data\L")].
Proof.
  assert (Hr : Z.land 1040 FILE_ATTRIBUTE_REPARSE_POINT <> 0) by (cbv; discriminate).
  assert (H5 : 5 <> 0) by discriminate.
  destruct (rewrite_stops_at_failed_step
              Sim.machine Sim.win32 Sim.headers Options_init 0 "C:\data\L" 0
              junction_unreadable 1040 (world junction_unreadable) eq_refl eq_refl Hr)
    as [Hread _].
  exact (Hread (world junction_unreadable) 5 "" (world junction_unreadable)
               eq_refl eq_refl H5).
Defined.

(** X9.  When the link has been deleted and the create fails, the visit
    returns the code of the create and counts one failure; the failed create
    is its last call, so the deleted link is not created again, with the old
    target or any other. *)
Theorem failed_create_leaves_link_deleted :
  forall (W : Type) (os : Win32 W) (hdr : Headers) (Options : fixlinkOptions)
         (fuel : nat) (Path : string) (CurDepth : Z) (s : State W) (a : Z) (w1 : W),
    depth_guard Options CurDepth = false ->
    GetFileAttributesEx Path (world s) = (Some a, w1) ->
    Z.land a FILE_ATTRIBUTE_REPARSE_POINT <> 0 ->
    (forall w2 T w3 w4 e w5,
        IsJunction Path w1 = (true, w2) ->
        GetJunctionTarget Path w2 = ((0, T), w3) ->
        DeleteJunction Path w3 = (0, w4) ->
        CreateJunction Path (StrReplace T (OldTargetBase Options) (NewTargetBase Options)) w4
          = (e, w5) ->
        e <> 0 ->
        exists s',
          fixlink Options (S fuel) Path CurDepth s = (Some e, s') /\ world s' = w5 /\
          NumFailed (Stats s') = NumFailed (Stats s) + 1 /\
          calls s' = calls s ++ [(CurDepth, call_GetFileAttributesEx Path);
                                 (CurDepth, call_IsJunction Path);
                                 (CurDepth, call_GetJunctionTarget Path);
                                 (CurDepth, call_StrReplace T (OldTargetBase Options)
                                                            (NewTargetBase Options));
                                 (CurDepth, call_DeleteJunction Path);
                                 (CurDepth, call_CreateJunction Path
                                    (StrReplace T (OldTargetBase Options)
                                                (NewTargetBase Options)))]) /\
    (forall w2 w2' T w3 w4 e w5,
        IsJunction Path w1 = (false, w2) ->
        IsSymlink Path w2 = (true, w2') ->
        GetSymlinkTarget Path w2' = ((0, T), w3) ->
        DeleteSymlink Path w3 = (0, w4) ->
        CreateSymlink Path (StrReplace T (OldTargetBase Options) (NewTargetBase Options)) w4
          = (e, w5) ->
        e <> 0 ->
        exists s',
          fixlink Options (S fuel) Path CurDepth s = (Some e, s') /\ world s' = w5 /\
          NumFailed (Stats s') = NumFailed (Stats s) + 1 /\
          calls s' = calls s ++ [(CurDepth, call_GetFileAttributesEx Path);
                                 (CurDepth, call_IsJunction Path);
                                 (CurDepth, call_IsSymlink Path);
                                 (CurDepth, call_GetSymlinkTarget Path);
                                 (CurDepth, call_StrReplace T (OldTargetBase Options)
                                                            (NewTargetBase Options));
                                 (CurDepth, call_DeleteSymlink Path);
                                 (CurDepth, call_CreateSymlink Path
                                    (StrReplace T (OldTargetBase Options)
                                                (NewTargetBase Options)))]).
Proof.
  intros W os hdr Options fuel Path d s a w1 G Ea Hr. split.
  - intros w2 T w3 w4 e w5 Ej Et Ed Ec He.
    destruct (junction_steps Options fuel Path d s a w1 w2 0 T w3 G Ea Hr Ej Et) as [_ H].
    destruct (H eq_refl 0 w4 Ed) as [_ H']. rewrite (H' eq_refl e w5 Ec He).
    match goal with
    | |- exists s', finish e Path ?st = _ /\ _ =>
        destruct (finish_failure e Path st He) as [s' [F [Fw [Fc [_ [_ Ff]]]]]]
    end.
    exists s'. cbn [world Stats calls] in *.
    split; [exact F | split; [exact Fw | split; [exact Ff|]]].
    rewrite Fc, <- !app_assoc. reflexivity.
  - intros w2 w2' T w3 w4 e w5 Ej El Et Ed Ec He.
    destruct (symlink_steps Options fuel Path d s a w1 w2 w2' 0 T w3 G Ea Hr Ej El Et)
      as [_ H].
    destruct (H eq_refl 0 w4 Ed) as [_ H']. rewrite (H' eq_refl e w5 Ec He).
    match goal with
    | |- exists s', finish e Path ?st = _ /\ _ =>
        destruct (finish_failure e Path st He) as [s' [F [Fw [Fc [_ [_ Ff]]]]]]
    end.
    exists s'. cbn [world Stats calls] in *.
    split; [exact F | split; [exact Fw | split; [exact Ff|]]].
    rewrite Fc, <- !app_assoc. reflexivity.
Qed.

Lemma failed_create_leaves_link_deleted_witness :
  exists s',
    fixlink top_level_only 1 "C:\data\L" 0 junction_not_recreated = (Some 5, s') /\
    Sim.lookup "C:\data\L" (Sim.files (world s')) = None /\
    NumFailed (Stats s') = 0 + 1.
Proof.
  assert (Hr : Z.land 1040 FILE_ATTRIBUTE_REPARSE_POINT <> 0) by (cbv; discriminate).
  assert (H5 : 5 <> 0) by discriminate.
  destruct (failed_create_leaves_link_deleted
              Sim.machine Sim.win32 Sim.headers top_level_only 0 "C:\data\L" 0
              junction_not_recreated 1040 (world junction_not_recreated)
              eq_refl eq_refl Hr) as [Hj _].
  set (w4 := snd (DeleteJunction "C:\data\L" (world junction_not_recreated))).
  assert (Ed : DeleteJunction "C:\data\L" (world junction_not_recreated) = (0, w4))
    by reflexivity.
  assert (Ec : CreateJunction "C:\data\L"
                 (StrReplace "C:\old\sub" (OldTargetBase top_level_only)
                             (NewTargetBase top_level_only)) w4 = (5, w4))
    by reflexivity.
  destruct (Hj (world junction_not_recreated) "C:\old\sub" (world junction_not_recreated)
               w4 5 w4 eq_refl eq_refl Ed Ec H5) as [s' [E [Ew [Ef _]]]].
  exists s'. split; [exact E | split; [rewrite Ew; reflexivity | exact Ef]].
Defined.

Section One_kind.

Context {W : Type} {os : Win32 W} {hdr : Headers}.
Variable Options : fixlinkOptions.

Ltac kind_step :=
  first
    [ apply (keeps_ret _ (extends_refl _))
    | apply extends_tprintf
    | apply extends_update_Stats
    | apply extends_sys; cbn [snd junction_call symlink_call]; exact I
    | apply (keeps_when _ (extends_refl _))
    | apply (keeps_bind _ (extends_trans _)); [ | intros ?]
    | match goal with
      | |- keeps _ (if ?b then _ else _) => destruct b
      | |- keeps _ (let (_, _) := ?x in _) => destruct x
      | |- keeps _ (PrintErrorMessage _ _) => unfold PrintErrorMessage
      end ].

Ltac whole_step :=
  first
    [ apply total_ret | apply total_tprintf | apply total_update_Stats
    | apply total_PrintErrorMessage | apply total_sys | apply total_when
    | apply total_bind; [ | intros ?]
    | match goal with
      | |- total (if ?b then _ else _) => destruct b
      | |- total (let (_, _) := ?x in _) => destruct x
      end ].

Lemma junction_branch_calls Path d :
  keeps (W := W) (extends (fun e => junction_call (snd e)))
        (bind (fix_junction Options Path d) (fun r => finish r Path)).
Proof.
  unfold fix_junction, replace_target, finish, incr_NumFailed. repeat kind_step.
Qed.

Lemma symlink_branch_calls Path d :
  keeps (W := W) (extends (fun e => symlink_call (snd e)))
        (bind (fix_symlink Options Path d) (fun r => finish r Path)).
Proof.
  unfold fix_symlink, replace_target, finish, incr_NumFailed. repeat kind_step.
Qed.

Lemma junction_branch_total Path d :
  total (W := W) (bind (fix_junction Options Path d) (fun r => finish r Path)).
Proof.
  unfold fix_junction, replace_target, finish, incr_NumFailed. repeat whole_step.
Qed.

Lemma symlink_branch_total Path d :
  total (W := W) (bind (fix_symlink Options Path d) (fun r => finish r Path)).
Proof.
  unfold fix_symlink, replace_target, finish, incr_NumFailed. repeat whole_step.
Qed.

Lemma junction_only fuel Path d (s : State W) a w1 w2 :
  depth_guard Options d = false ->
  GetFileAttributesEx Path (world s) = (Some a, w1) ->
  Z.land a FILE_ATTRIBUTE_REPARSE_POINT <> 0 ->
  IsJunction Path w1 = (true, w2) ->
  exists r s' rest,
    fixlink Options (S fuel) Path d s = (Some r, s') /\
    calls s' = calls s ++ (d, call_GetFileAttributesEx Path)
                       :: (d, call_IsJunction Path) :: rest /\
    Forall (fun e => junction_call (snd e)) rest.
Proof.
  intros G Ea Hr Ej.
  rewrite (fixlink_attributes Options fuel Path d s a w1 G Ea).
  destruct (Z.eqb_spec (Z.land a FILE_ATTRIBUTE_REPARSE_POINT) 0) as [E|_]; [contradiction|].
  cbn [negb]. unfold fix_reparse_point.
  rewrite bind_assoc. erewrite bind_sys by (cbn [world]; exact Ej).
  set (s2 := mkState w2 _ _ _).
  destruct (junction_branch_total Path d s2) as [r Hr'].
  destruct (junction_branch_calls Path d s2) as [rest [Ec Fc]].
  destruct (bind (fix_junction Options Path d) (fun r => finish r Path) s2) as [o s'] eqn:Em.
  cbn [fst snd] in *. subst o.
  exists r, s', rest. split; [reflexivity | split; [|exact Fc]].
  rewrite Ec. unfold s2. cbn [calls]. rewrite <- !app_assoc. reflexivity.
Qed.

Lemma symlink_only fuel Path d (s : State W) a w1 w2 w3 :
  depth_guard Options d = false ->
  GetFileAttributesEx Path (world s) = (Some a, w1) ->
  Z.land a FILE_ATTRIBUTE_REPARSE_POINT <> 0 ->
  IsJunction Path w1 = (false, w2) ->
  IsSymlink Path w2 = (true, w3) ->
  exists r s' rest,
    fixlink Options (S fuel) Path d s = (Some r, s') /\
    calls s' = calls s ++ (d, call_GetFileAttributesEx Path)
                       :: (d, call_IsJunction Path)
                       :: (d, call_IsSymlink Path) :: rest /\
    Forall (fun e => symlink_call (snd e)) rest.
Proof.
  intros G Ea Hr Ej El.
  rewrite (fixlink_attributes Options fuel Path d s a w1 G Ea).
  destruct (Z.eqb_spec (Z.land a FILE_ATTRIBUTE_REPARSE_POINT) 0) as [E|_]; [contradiction|].
  cbn [negb]. unfold fix_reparse_point.
  rewrite bind_assoc. erewrite bind_sys by (cbn [world]; exact Ej).
  cbn beta iota.
  rewrite bind_assoc. erewrite bind_sys by (cbn [world]; exact El).
  cbn beta iota.
  set (s2 := mkState w3 _ _ _).
  destruct (symlink_branch_total Path d s2) as [r Hr'].
  destruct (symlink_branch_calls Path d s2) as [rest [Ec Fc]].
  destruct (bind (fix_symlink Options Path d) (fun r => finish r Path) s2) as [o s'] eqn:Em.
  cbn [fst snd] in *. subst o.
  exists r, s', rest. split; [reflexivity | split; [|exact Fc]].
  rewrite Ec. unfold s2. cbn [calls]. rewrite <- !app_assoc. reflexivity.
Qed.

End One_kind.

(** X10.  A reparse point that [IsJunction] accepts is handled with the
    junction primitives alone: [IsSymlink] is not asked and no call for a
    symbolic link is made on it.  One that [IsJunction] refuses and
    [IsSymlink] accepts is handled, after these two tests, with the primitives
    for symbolic links alone. *)
Theorem one_kind_of_link_calls :
  forall (W : Type) (os : Win32 W) (hdr : Headers) (Options : fixlinkOptions)
         (fuel : nat) (Path : string) (CurDepth : Z) (s : State W) (a : Z) (w1 : W),
    depth_guard Options CurDepth = false ->
    GetFileAttributesEx Path (world s) = (Some a, w1) ->
    Z.land a FILE_ATTRIBUTE_REPARSE_POINT <> 0 ->
    (forall w2,
        IsJunction Path w1 = (true, w2) ->
        exists r s' rest,
          fixlink Options (S fuel) Path CurDepth s = (Some r, s') /\
          calls s' = calls s ++ (CurDepth, call_GetFileAttributesEx Path)
                             :: (CurDepth, call_IsJunction Path) :: rest /\
          Forall (fun e => junction_call (snd e)) rest) /\
    (forall w2 w3,
        IsJunction Path w1 = (false, w2) ->
        IsSymlink Path w2 = (true, w3) ->
        exists r s' rest,
          fixlink Options (S fuel) Path CurDepth s = (Some r, s') /\
          calls s' = calls s ++ (CurDepth, call_GetFileAttributesEx Path)
                             :: (CurDepth, call_IsJunction Path)
                             :: (CurDepth, call_IsSymlink Path) :: rest /\
          Forall (fun e => symlink_call (snd e)) rest).
Proof.
  intros W os hdr Options fuel Path d s a w1 G Ea Hr. split.
  - intros w2 Ej. exact (junction_only Options fuel Path d s a w1 w2 G Ea Hr Ej).
  - intros w2 w3 Ej El. exact (symlink_only Options fuel Path d s a w1 w2 w3 G Ea Hr Ej El).
Qed.

Lemma one_kind_of_link_calls_witness :
  exists r s' rest,
    fixlink Options_init 1 "C:\data\L" 1 data_with_junction = (Some r, s') /\
    calls s' = calls data_with_junction
                 ++ (1, call_GetFileAttributesEx "C:\data\L")
                 :: (1, call_IsJunction "C:\data\L") :: rest /\
    Forall (fun e => junction_call (snd e)) rest.
Proof.
  assert (Hr : Z.land 1040 FILE_ATTRIBUTE_REPARSE_POINT <> 0) by (cbv; discriminate).
  destruct (one_kind_of_link_calls
              Sim.machine Sim.win32 Sim.headers Options_init 0 "C:\data\L" 1
              data_with_junction 1040 (world data_with_junction) eq_refl eq_refl Hr)
    as [Hj _].
  exact (Hj (world data_with_junction) eq_refl).
Defined.

(** ** The command line *)

Section Command_line.

Context {W : Type} {os : Win32 W} {hdr : Headers}.

(** The first loop only prints. *)
Lemma parse_arguments_frame args :
  forall i Options idx (s : State W),
  exists p s1,
    parse_arguments args i Options idx s = (Some p, s1) /\
    world s1 = world s /\ calls s1 = calls s /\ Stats s1 = Stats s.
Proof.
  induction args as [|arg rest IH]; intros i Options idx s; cbn [parse_arguments].
  - eexists _, _. split; [reflexivity | repeat split].
  - destruct (is_VER arg); [eexists _, _; split; [reflexivity | repeat split]|].
    destruct (is_help arg); [eexists _, _; split; [reflexivity | repeat split]|].
    destruct (is_LEV arg); [apply IH|].
    destruct (is_V arg); [apply IH|].
    destruct rest; [apply IH | eexists _, _; split; [reflexivity | repeat split]].
Qed.

Lemma parse_arguments_return_code args :
  forall i Options idx (s : State W) code s1,
    parse_arguments args i Options idx s = (Some (parse_return code), s1) -> code = 0.
Proof.
  induction args as [|arg rest IH]; intros i Options idx s code s1; cbn [parse_arguments].
  - discriminate.
  - destruct (is_VER arg); [intros E; injection E as <- _; reflexivity|].
    destruct (is_help arg); [intros E; injection E as <- _; reflexivity|].
    destruct (is_LEV arg); [apply IH|].
    destruct (is_V arg); [apply IH|].
    destruct rest; [apply IH | discriminate].
Qed.


Lemma parse_arguments_tail pre find replace :
  Forall passed_option pre ->
  no_option find ->
  forall i Options idx (s : State W),
  exists Options',
    forall paths,
      parse_arguments (pre ++ find :: replace :: paths) i Options idx s =
      (Some (parse_continue Options' (i + Z.of_nat (List.length pre) + 2)), s).
Proof.
  intros Hpre [Hv [Hh [Hl Hb]]].
  induction Hpre as [|a pre [Av [Ah Ao]] _ IH]; intros i Options idx s.
  - eexists. intros paths. cbn [app parse_arguments]. rewrite Hv, Hh, Hl, Hb.
    cbn [List.length Z.of_nat]. rewrite Z.add_0_r. reflexivity.
  - assert (Hi : forall j, j + 1 + Z.of_nat (List.length pre) + 2
                           = j + Z.of_nat (List.length (a :: pre)) + 2)
      by (intros j; cbn [List.length]; lia).
    destruct (is_LEV a) eqn:Al.
    + match type of IH with
      | forall i O x s, _ => idtac
      end.
      destruct (IH (i + 1)
                   (mkOptions (OldTargetBase Options) (NewTargetBase Options)
                              (_ttoi (StringCchCopy sizeof_Value "" (from_index_5 a)))
                              (bVerbose Options)) idx s) as [O' HO].
      exists O'. intros paths. cbn [app parse_arguments]. rewrite Av, Ah, Al.
      rewrite HO, Hi. reflexivity.
    + destruct Ao as [Ao|Ao]; [discriminate Ao|].
      destruct (IH (i + 1)
                   (mkOptions (OldTargetBase Options) (NewTargetBase Options)
                              (MaxDepth Options) true) idx s) as [O' HO].
      exists O'. intros paths. cbn [app parse_arguments]. rewrite Av, Ah, Al, Ao.
      rewrite HO, Hi. reflexivity.
Qed.

Lemma parse_arguments_lone pre last :
  Forall passed_option pre ->
  no_option last ->
  forall i Options idx (s : State W),
  exists Options',
    parse_arguments (pre ++ [last]) i Options idx s = (Some (parse_continue Options' idx), s) /\
    OldTargetBase Options' = OldTargetBase Options /\
    NewTargetBase Options' = NewTargetBase Options.
Proof.
  intros Hpre [Hv [Hh [Hl Hb]]].
  induction Hpre as [|a pre [Av [Ah Ao]] _ IH]; intros i Options idx s.
  - cbn [app parse_arguments]. rewrite Hv, Hh, Hl, Hb.
    eexists. split; [reflexivity | split; reflexivity].
  - cbn [app parse_arguments]. rewrite Av, Ah.
    destruct (is_LEV a).
    + match goal with
      | |- context [parse_arguments _ ?i' ?o' ?x' s] =>
          destruct (IH i' o' x' s) as [O' [E [E1 E2]]]
      end.
      exists O'. split; [exact E | split; assumption].
    + destruct Ao as [Ao|Ao]; [discriminate Ao|]. rewrite Ao.
      match goal with
      | |- context [parse_arguments _ ?i' ?o' ?x' s] =>
          destruct (IH i' o' x' s) as [O' [E [E1 E2]]]
      end.
      exists O'. split; [exact E | split; assumption].
Qed.


End Command_line.



(** X12.  With fewer than four arguments, program name included, the
    process ends before the second loop: it makes no call to the platform and
    leaves the counters alone, whatever the parser had stored, and it exits
    with 1, or with 0 when the parser left for [/VER] or [/?]. *)
Theorem too_few_arguments_touch_nothing :
  forall (W : Type) (os : Win32 W) (hdr : Headers) (fuel : nat)
         (Options_start : fixlinkOptions) (indeterminate : DWORD) (argv : list string)
         (s : State W),
    (List.length argv < 4)%nat ->
    (fst (_tmain fuel Options_start indeterminate argv s) = Some 0 \/
     fst (_tmain fuel Options_start indeterminate argv s) = Some 1) /\
    world (snd (_tmain fuel Options_start indeterminate argv s)) = world s /\
    calls (snd (_tmain fuel Options_start indeterminate argv s)) = calls s /\
    Stats (snd (_tmain fuel Options_start indeterminate argv s)) = Stats s.
Proof.
  intros W os hdr fuel Options_start ind argv s Hlen.
  destruct (parse_arguments_frame (tl argv) 1 Options_start 4 s) as [p [s1 [Ep [Hw [Hc HS]]]]].
  rewrite (tmain_parsed fuel Options_start ind argv s s1 p Ep).
  destruct p as [code|Options idx].
  - cbn [fst snd]. split; [|split; [exact Hw | split; [exact Hc | exact HS]]].
    left. rewrite (parse_arguments_return_code _ _ _ _ _ _ _ Ep). reflexivity.
  - replace (Z.of_nat (List.length argv) <? 4) with true by (symmetry; apply Z.ltb_lt; lia).
    cbn. split; [right; reflexivity | split; [exact Hw | split; [exact Hc | exact HS]]].
Qed.

Lemma too_few_arguments_touch_nothing_witness :
  (List.length ["fixlink"; "C:\old"; "C:\data"] < 4)%nat /\
  fst (_tmain 5 Options_init 0 ["fixlink"; "C:\old"; "C:\data"] data_with_junction) = Some 1 /\
  calls (snd (_tmain 5 Options_init 0 ["fixlink"; "C:\old"; "C:\data"] data_with_junction))
    = [] /\
  Stats (snd (_tmain 5 Options_init 0 ["fixlink"; "C:\old"; "C:\data"] data_with_junction))
    = Stats_init.
Proof.
  assert (Hlen : (List.length ["fixlink"; "C:\old"; "C:\data"] < 4)%nat)
    by (cbv; repeat constructor).
  destruct (too_few_arguments_touch_nothing Sim.machine Sim.win32 Sim.headers 5 Options_init 0
              ["fixlink"; "C:\old"; "C:\data"] data_with_junction Hlen)
    as [_ [_ [Hc HS]]].
  split; [exact Hlen | split; [reflexivity | split; [exact Hc | exact HS]]].
Defined.

(** X13.  The first loop stops at the first argument it takes for no option
    and that has a successor: the options it leaves and the index it sets,
    [i + 2], are the same whatever follows the two bases.  A [/V] or [/LEV:n]
    written after them changes no option. *)
Theorem arguments_after_bases_are_not_parsed :
  forall (W : Type) (os : Win32 W) (hdr : Headers)
         (pre : list string) (find replace : string) (i : Z)
         (Options : fixlinkOptions) (StartArgIdx : Z) (s : State W),
    Forall passed_option pre ->
    no_option find ->
    exists Options',
      forall paths,
        parse_arguments (pre ++ find :: replace :: paths) i Options StartArgIdx s =
        (Some (parse_continue Options' (i + Z.of_nat (List.length pre) + 2)), s).
Proof.
  intros W os hdr pre find replace i Options idx s Hpre Hfind.
  exact (parse_arguments_tail pre find replace Hpre Hfind i Options idx s).
Qed.

Lemma arguments_after_bases_are_not_parsed_witness :
  Forall passed_option [] /\
  no_option "C:\old" /\
  exists Options',
    bVerbose Options' = false /\
    forall paths,
      parse_arguments ("C:\old" :: "C:\new" :: paths) 1 Options_init 4 data_with_junction =
      (Some (parse_continue Options' 3), data_with_junction).
Proof.
  assert (H1 : Forall (passed_option (hdr := Sim.headers)) []) by constructor.
  assert (H2 : no_option "C:\old") by (repeat split).
  split; [exact H1 | split; [exact H2|]].
  destruct (arguments_after_bases_are_not_parsed Sim.machine Sim.win32 Sim.headers
              [] "C:\old" "C:\new" 1 Options_init 4 data_with_junction H1 H2) as [O' HO].
  exists O'. split; [|exact HO].
  pose proof (HO []) as E. cbn in E. injection E as <-. reflexivity.
Defined.



(** X15.  A last argument taken for no option has no successor and is not
    stored: when only [/LEV] and [/V] options come before it, the parser
    leaves the two bases and [StartArgIdx] as they were. *)
Theorem lone_last_argument_stores_nothing :
  forall (W : Type) (os : Win32 W) (hdr : Headers)
         (pre : list string) (last : string) (i : Z)
         (Options : fixlinkOptions) (StartArgIdx : Z) (s : State W),
    Forall passed_option pre ->
    no_option last ->
    exists Options',
      parse_arguments (pre ++ [last]) i Options StartArgIdx s
        = (Some (parse_continue Options' StartArgIdx), s) /\
      OldTargetBase Options' = OldTargetBase Options /\
      NewTargetBase Options' = NewTargetBase Options.
Proof.
  intros W os hdr pre last i Options idx s Hpre Hlast.
  exact (parse_arguments_lone pre last Hpre Hlast i Options idx s).
Qed.

Lemma lone_last_argument_stores_nothing_witness :
  Forall passed_option ["/V"; "/LEV:1"] /\
  no_option "C:\data" /\
  exists Options',
    parse_arguments (["/V"; "/LEV:1"] ++ ["C:\data"]) 1 Options_init 4 data_with_junction
      = (Some (parse_continue Options' 4), data_with_junction) /\
    OldTargetBase Options' = "" /\ NewTargetBase Options' = "".
Proof.
  assert (H1 : Forall passed_option ["/V"; "/LEV:1"]) by (repeat constructor).
  assert (H2 : no_option "C:\data") by (repeat split).
  split; [exact H1 | split; [exact H2|]].
  exact (lone_last_argument_stores_nothing Sim.machine Sim.win32 Sim.headers
           ["/V"; "/LEV:1"] "C:\data" 1 Options_init 4 data_with_junction H1 H2).
Defined.

(** X16.  Whenever the second loop has run to its end, also after a root
    that failed, the three lines of the summary are the last output: the
    [Skipped] and [Failed] lines show the counters as the loop left them and
    the [Modified] line shows the value that counter had when the program
    started. *)
Theorem summary_is_printed_last :
  forall (W : Type) (os : Win32 W) (hdr : Headers) (fuel : nat)
         (Options_start : fixlinkOptions) (indeterminate : DWORD) (argv : list string)
         (s : State W) (Options : fixlinkOptions) (StartArgIdx : Z) (s1 : State W)
         (r : DWORD) (s2 : State W),
    parse_arguments (tl argv) 1 Options_start 4 s
      = (Some (parse_continue Options StartArgIdx), s1) ->
    (4 <= List.length argv)%nat ->
    visit_arguments fuel Options (tl argv) indeterminate s1 = (Some r, s2) ->
    stdout (snd (_tmain fuel Options_start indeterminate argv s)) =
    stdout s2 ++ [printed "Modified: %d\n" [arg_d (NumModified (Stats s))];
                  printed "Skipped: %d\n" [arg_d (NumSkipped (Stats s2))];
                  printed "Failed: %d\n" [arg_d (NumFailed (Stats s2))]].
Proof.
  intros W os hdr fuel Options_start ind argv s Options idx s1 r s2 Ep Hlen Ev.
  exact (Modified_line_shows_start_value fuel Options_start ind argv s Options idx s1 r s2
           Ep Hlen Ev).
Qed.

Lemma summary_is_printed_last_witness :
  (4 <= List.length missing_root_argv)%nat /\
  stdout (snd (_tmain 5 Options_init 0 missing_root_argv missing_root)) =
  [printed "File not found: %s.\n" [arg_s "C:\gone"];
   printed "Modified: %d\n" [arg_d 0];
   printed "Skipped: %d\n" [arg_d 0];
   printed "Failed: %d\n" [arg_d 1]].
Proof.
  assert (Hlen : (4 <= List.length missing_root_argv)%nat) by (cbv; repeat constructor).
  set (O := mkOptions "C:\old" "C:\new" (-1) false).
  set (s2 := snd (visit_arguments 5 O (tl missing_root_argv) 0 missing_root)).
  assert (Ev : visit_arguments 5 O (tl missing_root_argv) 0 missing_root = (Some 2, s2))
    by reflexivity.
  split; [exact Hlen|].
  rewrite (summary_is_printed_last Sim.machine Sim.win32 Sim.headers 5 Options_init 0
             missing_root_argv missing_root O 3 missing_root 2 s2 eq_refl Hlen Ev).
  reflexivity.
Defined.
